(** * cloud-connector: the MQTT control-plane message engine

    A shallow embedding of the handlers of package [mqtt]
    (message handlers and message senders) and of what they use from
    [controller], [domain] and [config], followed by the properties the
    specification states about them.

    Go values are embedded as follows.
    - [string] is Rocq's [string]; [[]byte] is [list byte].
    - [interface{}] is the inductive [any] of the dynamic types that reach the
      handlers: what [encoding/json] decodes into, and the
      [*CommandMessageContent] the senders store in an envelope.
    - [map[string]T] is stdpp's [gmap string T]; [m[k]] with the comma-ok form
      is [m !! k], and the one-result form is [index m k] (the zero value [Nil]
      when the key is absent).
    - an [error] result is [option error] ([None] is [nil]); a call returning
      values and an error is a [result].
    - a handler is a value of [Run A]: the effects it performs, in program
      order, and how it ends (it returns, it panics, or the process exits).
      A [go] statement is the effect [Go g]; [run_goroutine] gives the body. *)

From stdpp Require Import base strings gmap list pretty.
From Stdlib Require Import ZArith Floats Strings.Byte Strings.Ascii.

Local Open Scope string_scope.
Local Open Scope list_scope.
Local Open Scope Z_scope.

(** ** Errors *)

(** The [error] values the handlers can tell apart: the sentinel
    [context.Canceled], an error made by [errors.New], and an error wrapping
    another one (what [errors.Is] unwraps). *)
Inductive error : Type :=
| context_Canceled
| errors_New (text : string)
| Wrapped (text : string) (err : error).

#[global] Instance error_eq_dec : EqDecision error.
Proof. solve_decision. Defined.

(** [errors.Is(err, target)]: [err] or an error in its chain is [target]. *)
Fixpoint errors_Is (err target : error) : bool :=
  if decide (err = target) then true
  else match err with
       | Wrapped _ inner => errors_Is inner target
       | _ => false
       end.

Inductive result (A : Type) : Type :=
| Ok (a : A)
| Err (err : error).
Arguments Ok {A} a.
Arguments Err {A} err.

(** ** Domain types *)

(** [domain.ClientID], [domain.AccountID] and [domain.Identity] are opaque
    strings. *)
Module domain.
Abbreviation ClientID := string (only parsing).
Abbreviation AccountID := string (only parsing).
Abbreviation Identity := string (only parsing).
End domain.

(** A [uuid.UUID], by its [String()]. *)
Abbreviation UUID := string (only parsing).
(** [time.Time], as nanoseconds since the epoch. *)
Abbreviation Time := Z (only parsing).

(** [CommandMessageContent{Command, Arguments}]; the only arguments the
    senders build are [map[string]int]. *)
Record CommandMessageContent : Type := {
  Command : string;
  Arguments : gmap string Z;
}.

#[local] Unset Elimination Schemes.
(** The dynamic values of an [interface{}]. *)
Inductive any : Type :=
| Nil
| Bool (b : bool)
| Float64 (f : float)
| String (s : string)
| Slice (l : list any)
| MapStringAny (m : gmap string any)
| CommandMessageContentPtr (content : CommandMessageContent).
#[local] Set Elimination Schemes.

(** [m[k]] in its one-result form. *)
Definition index (m : gmap string any) (k : string) : any :=
  default Nil (m !! k).

(** [v == s] for an interface value [v] and a string constant [s]: the
    dynamic type must be [string] and the values equal. *)
Definition eq_string (v : any) (s : string) : bool :=
  match v with
  | String s' => bool_decide (s' = s)
  | _ => false
  end.

(** The envelope of control messages. *)
Record ControlMessage : Type := {
  MessageType : string;
  MessageID : string;
  Version : Z;
  Sent : Time;
  Content : any;
}.

(** [domain.RhcClient]. *)
Record RhcClient : Type := {
  ClientID : domain.ClientID;
  Account : domain.AccountID;
  Dispatchers : any;
  CanonicalFacts : any;
}.

(** The fields of [config.Config] the handlers read. *)
Record Config : Type := {
  MqttControlPublishQoS : Z;
  InvalidHandshakeReconnectDelay : Z;
}.

(** ** The libraries: MQTT and Kafka *)

Module MQTT.
(** A publish token; [Error] is what [t.Error()] gives after [t.Wait()]. *)
Record Token : Type := { Error : option error }.

(** [MQTT.Client], by what [Publish] answers. *)
Record Client : Type := {
  Publish : string → Z → bool → list Byte.byte → Token;
}.

(** [MQTT.Message]; a [nil] payload and an empty one are both [[]]. *)
Record Message : Type := {
  Topic : string;
  Payload : list Byte.byte;
  MessageID : Z;
}.
End MQTT.

Module kafka.
Record Header : Type := { Key : string; HeaderValue : list Byte.byte }.

Record Message : Type := {
  Headers : list Header;
  Value : list Byte.byte;
}.

(** [*kafka.Writer] under the context it is called with, by what
    [WriteMessages] answers. *)
Record Writer : Type := {
  WriteMessages : list Message → option error;
}.
End kafka.

(** ** Collaborators *)

(** [controller.AccountIdResolver]. *)
Record AccountIdResolver : Type := {
  MapClientIdToAccountId :
    domain.ClientID → result (domain.Identity * domain.AccountID);
}.

(** [controller.ConnectionRegistrar]; the handlers drop the first result of
    [Register] and every result of [Unregister]. *)
Record ConnectionRegistrar : Type := {
  Register : RhcClient → option error;
}.

(** [controller.ConnectedClientRecorder], as [handleOnlineMessage] calls it. *)
Record ConnectedClientRecorder : Type := {
  RecordConnectedClient : domain.Identity → RhcClient → option error;
}.

(** [controller.SourcesRecorder]. *)
Record SourcesRecorder : Type := {
  RegisterWithSources :
    domain.Identity → domain.AccountID → domain.ClientID →
    string → string → string → string → option error;
}.

(** Modelled from the spec: the kinds of topic [VerifyIncomingTopic] tells
    apart, "kind ∈ {control, data, unknown}" (the declaration of [TopicType]
    is not among the sources). *)
Inductive TopicType : Type :=
| ControlTopicType
| DataTopicType
| UnknownTopicType.

#[global] Instance TopicType_eq_dec : EqDecision TopicType.
Proof. solve_decision. Defined.

(** [*TopicVerifier], by what its method answers. *)
Record TopicVerifier : Type := {
  VerifyIncomingTopic : string → result (TopicType * domain.ClientID);
}.

(** [*TopicBuilder], by what its method answers. *)
Record TopicBuilder : Type := {
  BuildOutgoingControlTopic : domain.ClientID → string;
}.

(** What the handlers take from the standard library and [uuid]. *)
Record Runtime : Type := {
  uuid_NewRandom : result UUID;
  time_Now : Time;
  json_Marshal : ControlMessage → result (list Byte.byte);
  json_Unmarshal : string → result ControlMessage;
}.

(** ** Effects *)

Inductive Level : Type :=
| TraceLevel | DebugLevel | InfoLevel | ErrorLevel | FatalLevel.

#[global] Instance Level_eq_dec : EqDecision Level.
Proof. solve_decision. Defined.

(** The bodies of the [go] statements, with the variables they capture. *)
Inductive Goroutine : Type :=
| go_WriteMessages
    (kafkaWriter : kafka.Writer) (message : MQTT.Message) (mqttMessageID : string)
| go_Wait (t : MQTT.Token).

Inductive Event : Type :=
| Log (level : Level) (message : string)
| CounterInc (counter : string)
| Call_MapClientIdToAccountId (clientID : domain.ClientID)
| Call_Register (rhcClient : RhcClient)
| Call_Unregister (clientID : domain.ClientID)
| Call_RecordConnectedClient (identity : domain.Identity) (rhcClient : RhcClient)
| Call_RegisterWithSources
    (identity : domain.Identity) (account : domain.AccountID)
    (clientID : domain.ClientID)
    (sourceRef sourceName sourceType applicationType : string)
| Call_Publish (topic : string) (qos : Z) (retained : bool) (payload : list Byte.byte)
| Call_WriteMessages (msgs : list kafka.Message)
| Go (g : Goroutine).

(** How a piece of code ends. *)
Inductive Outcome (A : Type) : Type :=
| Returned (a : A)
| Panicked (reason : string)
| Exited (code : Z).
Arguments Returned {A} a.
Arguments Panicked {A} reason.
Arguments Exited {A} code.

Record Run (A : Type) : Type := MkRun {
  events : list Event;
  outcome : Outcome A;
}.
Arguments MkRun {A} events outcome.
Arguments events {A} r.
Arguments outcome {A} r.

Definition run_ret {A} (a : A) : Run A := MkRun [] (Returned a).

Definition run_bind {A B} (f : A → Run B) (m : Run A) : Run B :=
  match outcome m with
  | Returned a => MkRun (events m ++ events (f a)) (outcome (f a))
  | Panicked reason => MkRun (events m) (Panicked reason)
  | Exited code => MkRun (events m) (Exited code)
  end.

#[global] Instance Run_ret : MRet Run := @run_ret.
#[global] Instance Run_bind : MBind Run := @run_bind.

Definition emit (e : Event) : Run unit := MkRun [e] (Returned tt).
Definition log (level : Level) (message : string) : Run unit :=
  emit (Log level message).
Definition panic {A} (reason : string) : Run A := MkRun [] (Panicked reason).
(** [logger.Fatal]: the entry is written, then the process exits with 1. *)
Definition log_Fatal {A} (message : string) : Run A :=
  MkRun [Log FatalLevel message] (Exited 1).
(** A call of a collaborator: the call is recorded, the answer is [r]. *)
Definition call {A} (e : Event) (r : A) : Run A := MkRun [e] (Returned r).

(** The type assertions [v.(map[string]interface{})] and [v.(string)]. *)
Definition assert_map (v : any) : Run (gmap string any) :=
  match v with
  | MapStringAny m => mret m
  | _ => panic "interface conversion: interface {} is not map[string]interface {}"
  end.

Definition assert_string (v : any) : Run string :=
  match v with
  | String s => mret s
  | _ => panic "interface conversion: interface {} is not string"
  end.

(** ** Goroutines *)

(** The two [go func() { ... }()] bodies: the Kafka write of
    [ControlMessageHandler], and the wait for the publish token of
    [sendMessage]. *)
Definition run_goroutine (g : Goroutine) : Run unit :=
  match g with
  | go_WriteMessages kafkaWriter message mqttMessageID =>
      let record :=
        {| kafka.Headers :=
             [ {| kafka.Key := "topic";
                  kafka.HeaderValue := String.list_byte_of_string (MQTT.Topic message) |};
               {| kafka.Key := "mqtt_message_id";
                  kafka.HeaderValue := String.list_byte_of_string mqttMessageID |} ];
           kafka.Value := MQTT.Payload message |} in
      err ← call (Call_WriteMessages [record])
                 (kafka.WriteMessages kafkaWriter [record]);
      log DebugLevel "MQTT message written to kafka";;
      match err with
      | Some err =>
          log ErrorLevel "Error writing MQTT message to kafka";;
          if errors_Is err context_Canceled then
            (* The context was canceled: return and shut down cleanly *)
            mret tt
          else
            (* fall over and do not read any more messages *)
            log_Fatal "Failed writing to kafka"
      | None => mret tt
      end
  | go_Wait t =>
      match MQTT.Error t with
      | Some _ => log ErrorLevel "Error sending a message to MQTT broker"
      | None => mret tt
      end
  end.

(** The goroutines a run starts, in the order of their [go] statements. *)
Definition spawned (t : list Event) : list Goroutine :=
  omap (λ e, match e with Go g => Some g | _ => None end) t.

(** Everything a frame causes: what the handler does, then what each of the
    goroutines it started does. *)
Definition all_events (t : list Event) : list Event :=
  t ++ concat (map (λ g, events (run_goroutine g)) (spawned t)).

(** ** Constants of the handshake payload *)

Definition canonicalFactsKey := "canonical_facts".
Definition dispatchersKey := "dispatchers".
Definition catalogDispatcherKey := "catalog".
Definition catalogApplicationType := "ApplicationType".
Definition catalogSourceName := "SrcName".
Definition catalogSourceRef := "SourceRef".
Definition catalogSourceType := "SrcType".
Definition playbookWorkerDispatcherKey := "rhc-worker-playbook".

Section Handlers.
Context (rt : Runtime).

(** *** Message senders *)

Definition buildControlMessage (content : CommandMessageContent)
  : result (UUID * ControlMessage) :=
  match uuid_NewRandom rt with
  | Err err => Err err
  | Ok messageID =>
      Ok (messageID,
          {| MessageType := "control";
             MessageID := messageID;
             Version := 1;
             Sent := time_Now rt;
             Content := CommandMessageContentPtr content |})
  end.

Definition buildReconnectMessage (delay : Z) : result (UUID * ControlMessage) :=
  let args : gmap string Z := {[ "delay" := delay ]} in
  let content := {| Command := "reconnect"; Arguments := args |} in
  buildControlMessage content.

Definition sendMessage (mqttClient : MQTT.Client) (clientID : domain.ClientID)
    (messageID : UUID) (topic : string) (qos : Z) (message : ControlMessage)
  : Run (option error) :=
  match json_Marshal rt message with
  | Err err => mret (Some err)
  | Ok messageBytes =>
      log DebugLevel "Sending message to connected client on topic: ";;
      t ← call (Call_Publish topic qos false messageBytes)
               (MQTT.Publish mqttClient topic qos false messageBytes);
      emit (Go (go_Wait t));;
      mret None
  end.

(** The callers in [handleOnlineMessage] pass a reason between [clientID]
    and [delay], which this definition does not take; it is left out. *)
Definition sendReconnectMessageToClient (mqttClient : MQTT.Client)
    (topicBuilder : TopicBuilder) (qos : Z) (clientID : domain.ClientID)
    (delay : Z) : Run (option error) :=
  match buildReconnectMessage delay with
  | Err err => mret (Some err)
  | Ok (messageID, message) =>
      log DebugLevel "Sending reconnect message to connected client";;
      let topic := BuildOutgoingControlTopic topicBuilder clientID in
      sendMessage mqttClient clientID messageID topic qos message
  end.

(** *** The handshake *)

Definition doesHostHaveCanonicalFacts (handshakePayload : gmap string any)
  : bool :=
  bool_decide (is_Some (handshakePayload !! canonicalFactsKey)).

Definition doesHostHavePlaybookWorker (handshakePayload : gmap string any)
  : Run bool :=
  match handshakePayload !! dispatchersKey with
  | None => mret false
  | Some dispatchers =>
      dispatchersMap ← assert_map dispatchers;
      mret (bool_decide (is_Some (dispatchersMap !! playbookWorkerDispatcherKey)))
  end.

(** [a && b] evaluates [b] only when [a] holds. *)
Definition shouldHostBeRegisteredWithInventory
    (handshakePayload : gmap string any) : Run bool :=
  if doesHostHaveCanonicalFacts handshakePayload
  then doesHostHavePlaybookWorker handshakePayload
  else mret false.

Definition processDispatchers (sourcesRecorder : SourcesRecorder)
    (identity : domain.Identity) (account : domain.AccountID)
    (clientId : domain.ClientID) (handshakePayload : gmap string any)
  : Run unit :=
  match handshakePayload !! dispatchersKey with
  | None => log DebugLevel "No dispatchers found"
  | Some dispatchers =>
      dispatchersMap ← assert_map dispatchers;
      match dispatchersMap !! catalogDispatcherKey with
      | None => log DebugLevel "No catalog dispatcher found"
      | Some catalog =>
          catalogMap ← assert_map catalog;
          match catalogMap !! catalogApplicationType,
                catalogMap !! catalogSourceType,
                catalogMap !! catalogSourceRef,
                catalogMap !! catalogSourceName with
          | Some applicationType, Some sourceType,
            Some sourceRef, Some sourceName =>
              sourceRef ← assert_string sourceRef;
              sourceName ← assert_string sourceName;
              sourceType ← assert_string sourceType;
              applicationType ← assert_string applicationType;
              err ← call (Call_RegisterWithSources identity account clientId
                            sourceRef sourceName sourceType applicationType)
                         (RegisterWithSources sourcesRecorder identity account
                            clientId sourceRef sourceName sourceType
                            applicationType);
              match err with
              | Some _ =>
                  log ErrorLevel "Failed to register catalog with sources"
              | None => mret tt
              end
          | _, _, _, _ =>
              (* MISSING FIELDS *)
              log DebugLevel
                "Found a catalog dispatcher, but missing some of the required fields"
          end
      end
  end.

Definition handleOnlineMessage (client : MQTT.Client)
    (clientID : domain.ClientID) (msg : ControlMessage) (cfg : Config)
    (topicBuilder : TopicBuilder) (accountResolver : AccountIdResolver)
    (connectionRegistrar : ConnectionRegistrar)
    (connectedClientRecorder : ConnectedClientRecorder)
    (sourcesRecorder : SourcesRecorder) : Run (option error) :=
  log DebugLevel "handling online connection-status message";;
  r ← call (Call_MapClientIdToAccountId clientID)
           (MapClientIdToAccountId accountResolver clientID);
  match r with
  | Err err =>
      log ErrorLevel "Failed to resolve client id to account number";;
      sendReconnectMessageToClient client topicBuilder
        (MqttControlPublishQoS cfg) clientID
        (InvalidHandshakeReconnectDelay cfg);;
      mret (Some err)
  | Ok (identity, account) =>
      handshakePayload ← assert_map (Content msg);
      let rhcClient :=
        {| ClientID := clientID;
           Account := account;
           Dispatchers := index handshakePayload dispatchersKey;
           CanonicalFacts := index handshakePayload canonicalFactsKey |} in
      err ← call (Call_Register rhcClient)
                 (Register connectionRegistrar rhcClient);
      match err with
      | Some err =>
          sendReconnectMessageToClient client topicBuilder
            (MqttControlPublishQoS cfg) clientID
            (InvalidHandshakeReconnectDelay cfg);;
          mret (Some err)
      | None =>
          let enroll : Run (option error) :=
            processDispatchers sourcesRecorder identity account clientID
              handshakePayload;;
            mret None in
          gate ← shouldHostBeRegisteredWithInventory handshakePayload;
          if (gate : bool) then
            err ← call (Call_RecordConnectedClient identity rhcClient)
                       (RecordConnectedClient connectedClientRecorder
                          identity rhcClient);
            match err with
            | Some err =>
                log ErrorLevel
                  "Failed to record client id within the platform";;
                (* cannot register the connection with inventory: send a
                   disconnect message *)
                sendReconnectMessageToClient client topicBuilder
                  (MqttControlPublishQoS cfg) clientID
                  (InvalidHandshakeReconnectDelay cfg);;
                mret (Some err)
            | None => enroll
            end
          else enroll
      end
  end.

Definition handleOfflineMessage (client : MQTT.Client)
    (clientID : domain.ClientID) (msg : ControlMessage)
    (connectionRegistrar : ConnectionRegistrar) : Run (option error) :=
  log DebugLevel "handling offline connection-status message";;
  emit (Call_Unregister clientID);;
  mret None.

Definition handleEventMessage (client : MQTT.Client)
    (clientID : domain.ClientID) (msg : ControlMessage) : Run (option error) :=
  log DebugLevel "Received an event message from client: %v\n";;
  mret None.

Definition handleConnectionStatusMessage (client : MQTT.Client)
    (clientID : domain.ClientID) (msg : ControlMessage) (cfg : Config)
    (topicBuilder : TopicBuilder) (connectionRegistrar : ConnectionRegistrar)
    (accountResolver : AccountIdResolver)
    (connectedClientRecorder : ConnectedClientRecorder)
    (sourcesRecorder : SourcesRecorder) : Run (option error) :=
  log DebugLevel "handling connection status control message";;
  handshakePayload ← assert_map (Content msg);
  match handshakePayload !! "state" with
  | None =>
      mret (Some (errors_New "Invalid connection state"))
  | Some connectionState =>
      if eq_string connectionState "online" then
        handleOnlineMessage client clientID msg cfg topicBuilder
          accountResolver connectionRegistrar connectedClientRecorder
          sourcesRecorder
      else if eq_string connectionState "offline" then
        handleOfflineMessage client clientID msg connectionRegistrar
      else
        log DebugLevel
          "Invalid connection state from connection-status message.";;
        mret (Some (errors_New "Invalid connection state"))
  end.

(** *** Entry points *)

(** The handler [HandleControlMessage] returns; what the handlers of the
    message types return is dropped. *)
Definition HandleControlMessage (cfg : Config) (mqttClient : MQTT.Client)
    (topicVerifier : TopicVerifier) (topicBuilder : TopicBuilder)
    (connectionRegistrar : ConnectionRegistrar)
    (accountResolver : AccountIdResolver)
    (connectedClientRecorder : ConnectedClientRecorder)
    (sourcesRecorder : SourcesRecorder)
    (client : MQTT.Client) (topic payload : string) : Run unit :=
  log DebugLevel "Received control message on topic: %s\nMessage: %s\n";;
  emit (CounterInc "controlMessageReceivedCounter");;
  match VerifyIncomingTopic topicVerifier topic with
  | Err err => log ErrorLevel "Failed to verify topic"
  | Ok (_, clientID) =>
      if bool_decide (String.length payload = 0%nat) then
        (* This will happen when a retained message is removed *)
        log TraceLevel "client sent an empty payload"
      else
        match json_Unmarshal rt payload with
        | Err err => log ErrorLevel "Failed to unmarshal control message"
        | Ok controlMsg =>
            log DebugLevel "Got a control message:";;
            if String.eqb (MessageType controlMsg) "connection-status" then
              handleConnectionStatusMessage client clientID controlMsg cfg
                topicBuilder connectionRegistrar accountResolver
                connectedClientRecorder sourcesRecorder;;
              mret tt
            else if String.eqb (MessageType controlMsg) "event" then
              handleEventMessage client clientID controlMsg;;
              mret tt
            else
              log DebugLevel "Received an invalid message type:"
        end
  end.

(** The handler that forwards frames to Kafka. *)
Definition ControlMessageHandler (kafkaWriter : kafka.Writer)
    (topicVerifier : TopicVerifier)
    (client : MQTT.Client) (message : MQTT.Message) : Run unit :=
  let mqttMessageID := pretty (MQTT.MessageID message) in
  match VerifyIncomingTopic topicVerifier (MQTT.Topic message) with
  | Err err => log ErrorLevel "Failed to verify topic"
  | Ok (_, clientID) =>
      if bool_decide (length (MQTT.Payload message) = 0%nat) then
        (* a retained message is removed, or rhcd is priming the pump *)
        log TraceLevel "client sent an empty payload"
      else
        emit (Go (go_WriteMessages kafkaWriter message mqttMessageID))
  end.

Definition DataMessageHandler
    (client : MQTT.Client) (message : MQTT.Message) : Run unit :=
  log DebugLevel "Received data message on topic: %s\nMessage: %s\n";;
  emit (CounterInc "dataMessageReceivedCounter");;
  if bool_decide (length (MQTT.Payload message) = 0%nat) then
    log TraceLevel "Received empty data message"
  else mret tt.

Definition DefaultMessageHandler (topicVerifier : TopicVerifier)
    (controlMessageHandler dataMessageHandler :
       MQTT.Client → MQTT.Message → Run unit)
    (client : MQTT.Client) (message : MQTT.Message) : Run unit :=
  log DebugLevel "Received message on topic: %s\nMessage: %s\n";;
  match VerifyIncomingTopic topicVerifier (MQTT.Topic message) with
  | Err err =>
      log DebugLevel "Topic verification failed : %s\nMessage: %s\n"
  | Ok (topicType, _) =>
      if decide (topicType = ControlTopicType) then
        controlMessageHandler client message
      else if decide (topicType = DataTopicType) then
        dataMessageHandler client message
      else
        log DebugLevel "Received message on unknown topic: %s\nMessage: %s\n"
  end.
End Handlers.

(** ** Topics *)

(** The segments of [s] between the occurrences of ["/"]. *)
Fixpoint split_slash (s : string) : list string :=
  match s with
  | EmptyString => [EmptyString]
  | String.String c rest =>
      if Ascii.eqb c "/"%char then EmptyString :: split_slash rest
      else match split_slash rest with
           | [] => [String.String c EmptyString]
           | seg :: segs => String.String c seg :: segs
           end
  end.

(** Modelled from the spec: the topic builder, which is not among the
    sources. "Outbound control: <prefix>/<clientID>/control/out". *)
Definition NewTopicBuilder (prefix : string) : TopicBuilder :=
  {| BuildOutgoingControlTopic clientID :=
       prefix +:+ "/" +:+ clientID +:+ "/control/out" |}.

(** Modelled from the spec: the topic verifier, which is not among the
    sources. "Topic grammar: <prefix>/<clientID>/<kind>/<direction>, where
    kind ∈ {control, data}"; an incoming topic has the direction "in";
    "Classification fails with ErrMalformedTopic when the prefix does not
    match or segments are missing. ClientID segments containing / or empty
    strings are rejected." *)
Definition NewTopicVerifier (prefix : string) : TopicVerifier :=
  {| VerifyIncomingTopic topic :=
       let n := length (split_slash prefix) in
       if negb (bool_decide (take n (split_slash topic) = split_slash prefix))
       then Err (errors_New "ErrMalformedTopic")
       else match drop n (split_slash topic) with
            | [clientID; kind; direction] =>
                if String.eqb clientID "" || negb (String.eqb direction "in")
                then Err (errors_New "ErrMalformedTopic")
                else if String.eqb kind "control"
                then Ok (ControlTopicType, clientID)
                else if String.eqb kind "data"
                then Ok (DataTopicType, clientID)
                else Err (errors_New "ErrMalformedTopic")
            | _ => Err (errors_New "ErrMalformedTopic")
            end |}.

(** ** Observing a run *)

(** The calls of each collaborator in a trace, with their arguments. *)
Definition calls_MapClientIdToAccountId (t : list Event)
  : list domain.ClientID :=
  omap (λ e, match e with
             | Call_MapClientIdToAccountId c => Some c | _ => None end) t.

Definition calls_Register (t : list Event) : list RhcClient :=
  omap (λ e, match e with Call_Register rc => Some rc | _ => None end) t.

Definition calls_Unregister (t : list Event) : list domain.ClientID :=
  omap (λ e, match e with Call_Unregister c => Some c | _ => None end) t.

Definition calls_RecordConnectedClient (t : list Event)
  : list (domain.Identity * RhcClient) :=
  omap (λ e, match e with
             | Call_RecordConnectedClient i rc => Some (i, rc) | _ => None end) t.

Definition calls_RegisterWithSources (t : list Event)
  : list (domain.Identity * domain.AccountID * domain.ClientID *
          (string * string * string * string)) :=
  omap (λ e, match e with
             | Call_RegisterWithSources i a c ref name type app =>
                 Some (i, a, c, (ref, name, type, app))
             | _ => None end) t.

(** The messages published to the broker: topic, QoS, retained, payload. *)
Definition calls_Publish (t : list Event)
  : list (string * Z * bool * list Byte.byte) :=
  omap (λ e, match e with
             | Call_Publish topic qos retained payload =>
                 Some (topic, qos, retained, payload)
             | _ => None end) t.

(** The records written to Kafka. *)
Definition calls_WriteMessages (t : list Event) : list kafka.Message :=
  concat (omap (λ e, match e with
                     | Call_WriteMessages msgs => Some msgs | _ => None end) t).

(** The entries logged at a level. *)
Definition logged (level : Level) (t : list Event) : list string :=
  omap (λ e, match e with
             | Log l message => if decide (l = level) then Some message else None
             | _ => None end) t.

Definition is_collaborator_call (e : Event) : bool :=
  match e with
  | Call_MapClientIdToAccountId _ | Call_Register _ | Call_Unregister _
  | Call_RecordConnectedClient _ _
  | Call_RegisterWithSources _ _ _ _ _ _ _ => true
  | _ => false
  end.

(** The calls of the collaborators (resolver, registrar, recorder, sources),
    in order. *)
Definition collaborator_calls (t : list Event) : list Event :=
  List.filter is_collaborator_call t.

(** The envelope of a reconnect command minted with [messageID] at [now]. *)
Definition reconnect_envelope (messageID : UUID) (now : Time) (delay : Z)
  : ControlMessage :=
  {| MessageType := "control";
     MessageID := messageID;
     Version := 1;
     Sent := now;
     Content := CommandMessageContentPtr
                  {| Command := "reconnect";
                     Arguments := {[ "delay" := delay ]} |} |}.

(** The client handed to the registrar: [RhcClient{ClientID, Account,
    Dispatchers, CanonicalFacts}] of a handshake payload. *)
Definition rhcClient_of (clientID : domain.ClientID) (account : domain.AccountID)
    (handshakePayload : gmap string any) : RhcClient :=
  {| ClientID := clientID;
     Account := account;
     Dispatchers := index handshakePayload dispatchersKey;
     CanonicalFacts := index handshakePayload canonicalFactsKey |}.

(** What [sendReconnectMessageToClient] does besides logging: at most one
    publish, and the wait for its token. *)
Inductive reconnect_event : Event → Prop :=
| reconnect_Log level message : reconnect_event (Log level message)
| reconnect_Publish topic qos retained payload :
    reconnect_event (Call_Publish topic qos retained payload)
| reconnect_Go t : reconnect_event (Go (go_Wait t)).

(** What [processDispatchers] does besides logging: the call of the sources
    recorder. *)
Inductive enroll_event : Event → Prop :=
| enroll_Log level message : enroll_event (Log level message)
| enroll_RegisterWithSources i a c ref name type app :
    enroll_event (Call_RegisterWithSources i a c ref name type app).

(** ** The specification's side *)

Definition is_map (v : any) : bool :=
  match v with MapStringAny _ => true | _ => false end.

Definition is_string (v : any) : bool :=
  match v with String _ => true | _ => false end.

(** The inventory gate in the words of the specification: the payload has
    the key [canonical_facts], and its [dispatchers] map has the key
    [rhc-worker-playbook]. *)
Definition inventory_gate (handshakePayload : gmap string any) : bool :=
  bool_decide (is_Some (handshakePayload !! "canonical_facts")) &&
  match handshakePayload !! "dispatchers" with
  | Some (MapStringAny dispatchers) =>
      bool_decide (is_Some (dispatchers !! "rhc-worker-playbook"))
  | _ => false
  end.

(** The shape the handshake asserts of [dispatchers]: absent, or a map. *)
Definition dispatchers_shaped (handshakePayload : gmap string any) : bool :=
  match handshakePayload !! dispatchersKey with
  | Some v => is_map v
  | None => true
  end.

(** The shape the enrollment asserts of a catalog entry: when the four keys it
    reads are all there, their values are strings. *)
Definition catalog_shaped (catalogMap : gmap string any) : bool :=
  match catalogMap !! catalogApplicationType, catalogMap !! catalogSourceType,
        catalogMap !! catalogSourceRef, catalogMap !! catalogSourceName with
  | Some applicationType, Some sourceType, Some sourceRef, Some sourceName =>
      is_string applicationType && is_string sourceType &&
      is_string sourceRef && is_string sourceName
  | _, _, _, _ => true
  end.

(** The shape the handlers assert of a handshake payload, and of the content
    of a connection-status envelope. *)
Definition handshake_shaped (handshakePayload : gmap string any) : bool :=
  match handshakePayload !! dispatchersKey with
  | None => true
  | Some (MapStringAny dispatchersMap) =>
      match dispatchersMap !! catalogDispatcherKey with
      | None => true
      | Some (MapStringAny catalogMap) => catalog_shaped catalogMap
      | Some _ => false
      end
  | Some _ => false
  end.

Definition content_shaped (content : any) : bool :=
  match content with
  | MapStringAny handshakePayload => handshake_shaped handshakePayload
  | _ => false
  end.

(** The claim "exactly one of: Register is called exactly once, a reconnect
    command is published exactly once; never both", of a trace. *)
Definition register_xor_reconnect (t : list Event) : Prop :=
  (length (calls_Register t) = 1%nat ∧ calls_Publish t = []) ∨
  (calls_Register t = [] ∧ length (calls_Publish t) = 1%nat).

(** The Kafka record of a frame: the payload, under the headers [topic] and
    [mqtt_message_id]. *)
Definition kafka_record (message : MQTT.Message) (mqttMessageID : string)
  : kafka.Message :=
  {| kafka.Headers :=
       [ {| kafka.Key := "topic";
            kafka.HeaderValue := String.list_byte_of_string (MQTT.Topic message) |};
         {| kafka.Key := "mqtt_message_id";
            kafka.HeaderValue := String.list_byte_of_string mqttMessageID |} ];
     kafka.Value := MQTT.Payload message |}.

Section OnlinePath.
Context (rt : Runtime) (cfg : Config) (client : MQTT.Client)
  (topicBuilder : TopicBuilder) (connectionRegistrar : ConnectionRegistrar)
  (accountResolver : AccountIdResolver)
  (connectedClientRecorder : ConnectedClientRecorder)
  (sourcesRecorder : SourcesRecorder)
  (clientID : domain.ClientID) (handshakePayload : gmap string any).

#[local] Abbreviation reconnect :=
  (sendReconnectMessageToClient rt client topicBuilder
     (MqttControlPublishQoS cfg) clientID (InvalidHandshakeReconnectDelay cfg)).

(** The ways through [handleOnlineMessage] for a payload that is a map: the
    step that fails, or the enrollment when none does. *)
Inductive online_path : Run (option error) → Prop :=
| path_resolver_err err :
    MapClientIdToAccountId accountResolver clientID = Err err →
    online_path
      (MkRun ([ Log DebugLevel "handling online connection-status message";
                Call_MapClientIdToAccountId clientID;
                Log ErrorLevel "Failed to resolve client id to account number" ]
              ++ events reconnect)
             (Returned (Some err)))
| path_register_err identity account err :
    MapClientIdToAccountId accountResolver clientID = Ok (identity, account) →
    Register connectionRegistrar (rhcClient_of clientID account handshakePayload)
      = Some err →
    online_path
      (MkRun ([ Log DebugLevel "handling online connection-status message";
                Call_MapClientIdToAccountId clientID;
                Call_Register (rhcClient_of clientID account handshakePayload) ]
              ++ events reconnect)
             (Returned (Some err)))
| path_gate_panic identity account reason :
    MapClientIdToAccountId accountResolver clientID = Ok (identity, account) →
    Register connectionRegistrar (rhcClient_of clientID account handshakePayload)
      = None →
    outcome (shouldHostBeRegisteredWithInventory handshakePayload)
      = Panicked reason →
    online_path
      (MkRun [ Log DebugLevel "handling online connection-status message";
               Call_MapClientIdToAccountId clientID;
               Call_Register (rhcClient_of clientID account handshakePayload) ]
             (Panicked reason))
| path_record_err identity account err :
    MapClientIdToAccountId accountResolver clientID = Ok (identity, account) →
    Register connectionRegistrar (rhcClient_of clientID account handshakePayload)
      = None →
    outcome (shouldHostBeRegisteredWithInventory handshakePayload)
      = Returned true →
    RecordConnectedClient connectedClientRecorder identity
      (rhcClient_of clientID account handshakePayload) = Some err →
    online_path
      (MkRun ([ Log DebugLevel "handling online connection-status message";
                Call_MapClientIdToAccountId clientID;
                Call_Register (rhcClient_of clientID account handshakePayload);
                Call_RecordConnectedClient identity
                  (rhcClient_of clientID account handshakePayload);
                Log ErrorLevel "Failed to record client id within the platform" ]
              ++ events reconnect)
             (Returned (Some err)))
| path_enroll identity account gate :
    MapClientIdToAccountId accountResolver clientID = Ok (identity, account) →
    Register connectionRegistrar (rhcClient_of clientID account handshakePayload)
      = None →
    outcome (shouldHostBeRegisteredWithInventory handshakePayload)
      = Returned gate →
    (gate = true →
     RecordConnectedClient connectedClientRecorder identity
       (rhcClient_of clientID account handshakePayload) = None) →
    online_path
      (MkRun ([ Log DebugLevel "handling online connection-status message";
                Call_MapClientIdToAccountId clientID;
                Call_Register (rhcClient_of clientID account handshakePayload) ]
              ++ (if gate
                  then [Call_RecordConnectedClient identity
                          (rhcClient_of clientID account handshakePayload)]
                  else [])
              ++ events (processDispatchers sourcesRecorder identity account
                           clientID handshakePayload))
             (match outcome (processDispatchers sourcesRecorder identity account
                               clientID handshakePayload) with
              | Returned _ => Returned None
              | Panicked reason => Panicked reason
              | Exited code => Exited code
              end)).
End OnlinePath.

(** ** Scenarios *)

(** The collaborators, payloads and frames of the scenarios of the
    specification (S1 to S6), on the default prefix. *)
Module Scenario.
Definition topicVerifier : TopicVerifier := NewTopicVerifier "redhat/insights".
Definition topicBuilder : TopicBuilder := NewTopicBuilder "redhat/insights".

Definition cfg : Config :=
  {| MqttControlPublishQoS := 1; InvalidHandshakeReconnectDelay := 5 |}.

Definition client : MQTT.Client :=
  {| MQTT.Publish _ _ _ _ := {| MQTT.Error := None |} |}.

(** A connection-status envelope with the given content. *)
Definition envelope (content : any) : ControlMessage :=
  {| MessageType := "connection-status";
     MessageID := "m1";
     Version := 1;
     Sent := 0;
     Content := content |}.

(** A runtime whose decoder reads the frame as [envelope content]; the
    encoder stands for [json.Marshal] with the type and the id of a message. *)
Definition runtime (content : any) : Runtime :=
  {| uuid_NewRandom := Ok "6ba7b810-9dad-11d1-80b4-00c04fd430c8";
     time_Now := 0;
     json_Marshal m :=
       Ok (String.list_byte_of_string (MessageType m +:+ " " +:+ MessageID m));
     json_Unmarshal _ := Ok (envelope content) |}.

Definition resolver : AccountIdResolver :=
  {| MapClientIdToAccountId c := Ok ("identity-of-" +:+ c, "account-1") |}.
Definition resolver_failing : AccountIdResolver :=
  {| MapClientIdToAccountId _ := Err (errors_New "unknown client") |}.

Definition registrar : ConnectionRegistrar := {| Register _ := None |}.
Definition registrar_failing : ConnectionRegistrar :=
  {| Register _ := Some (errors_New "registry unreachable") |}.

Definition recorder : ConnectedClientRecorder :=
  {| RecordConnectedClient _ _ := None |}.
Definition recorder_failing : ConnectedClientRecorder :=
  {| RecordConnectedClient _ _ := Some (errors_New "inventory unreachable") |}.

Definition sources : SourcesRecorder :=
  {| RegisterWithSources _ _ _ _ _ _ _ := None |}.
Definition sources_failing : SourcesRecorder :=
  {| RegisterWithSources _ _ _ _ _ _ _ :=
       Some (errors_New "sources unreachable") |}.

(** S1: [{"state":"online"}]. *)
Definition online_bare : gmap string any := {[ "state" := String "online" ]}.

(** S4: [{"state":"offline"}]. *)
Definition offline : gmap string any := {[ "state" := String "offline" ]}.

(** A state that is neither online nor offline. *)
Definition standby : gmap string any := {[ "state" := String "standby" ]}.

(** The catalog entry of S2, with the reference under the key the
    specification names, [SrcRef]. *)
Definition catalog_SrcRef : gmap string any :=
  <[ "ApplicationType" := String "A" ]>
  (<[ "SrcName" := String "N" ]>
  (<[ "SrcRef" := String "R" ]>
  {[ "SrcType" := String "T" ]})).

(** The same entry with the reference under the key the code reads,
    [SourceRef]. *)
Definition catalog_SourceRef : gmap string any :=
  <[ "ApplicationType" := String "A" ]>
  (<[ "SrcName" := String "N" ]>
  (<[ "SourceRef" := String "R" ]>
  {[ "SrcType" := String "T" ]})).

(** An entry without [SrcType]. *)
Definition catalog_incomplete : gmap string any :=
  <[ "ApplicationType" := String "A" ]>
  (<[ "SrcName" := String "N" ]>
  {[ "SourceRef" := String "R" ]}).

(** S2: online, with canonical facts, the playbook worker and a catalog. *)
Definition online_with (catalog : any) : gmap string any :=
  <[ "state" := String "online" ]>
  (<[ "canonical_facts" := MapStringAny {[ "fqdn" := String "h.x" ]} ]>
  {[ "dispatchers" :=
       MapStringAny (<[ "rhc-worker-playbook" := MapStringAny ∅ ]>
                     {[ "catalog" := catalog ]}) ]}).

(** Online, with a catalog and neither canonical facts nor playbook worker. *)
Definition online_catalog_only (catalog : any) : gmap string any :=
  <[ "state" := String "online" ]>
  {[ "dispatchers" := MapStringAny {[ "catalog" := catalog ]} ]}.

(** Online, with [dispatchers] a list instead of an object. *)
Definition online_dispatchers_list : gmap string any :=
  <[ "state" := String "online" ]> {[ "dispatchers" := Slice [] ]}.

Definition control_topic : string := "redhat/insights/abc/control/in".
(** The bytes of a control frame, which [runtime] decodes. *)
Definition control_payload : string := "connection-status frame".
Definition data_topic : string := "redhat/insights/abc/data/in".

(** S6: the data frame [0xDEADBEEF] with the message id 7. *)
Definition data_frame : MQTT.Message :=
  {| MQTT.Topic := data_topic;
     MQTT.Payload := [Byte.xde; Byte.xad; Byte.xbe; Byte.xef];
     MQTT.MessageID := 7 |}.

Definition empty_data_frame : MQTT.Message :=
  {| MQTT.Topic := data_topic; MQTT.Payload := []; MQTT.MessageID := 8 |}.

Definition writer : kafka.Writer := {| kafka.WriteMessages _ := None |}.
Definition writer_canceled : kafka.Writer :=
  {| kafka.WriteMessages _ :=
       Some (Wrapped "write failed" context_Canceled) |}.
Definition writer_failing : kafka.Writer :=
  {| kafka.WriteMessages _ := Some (errors_New "broker unreachable") |}.
(** The connection status of client [abc] with the given payload and
    collaborators. *)
Definition status (handshakePayload : gmap string any)
    (registrar : ConnectionRegistrar) (resolver : AccountIdResolver)
    (recorder : ConnectedClientRecorder) (sources : SourcesRecorder)
  : Run (option error) :=
  handleConnectionStatusMessage (runtime (MapStringAny handshakePayload))
    client "abc" (envelope (MapStringAny handshakePayload)) cfg topicBuilder
    registrar resolver recorder sources.

(** The control frame of client [abc] that decodes to the given content. *)
Definition frame (content : any)
    (registrar : ConnectionRegistrar) (resolver : AccountIdResolver)
    (recorder : ConnectedClientRecorder) (sources : SourcesRecorder)
  : Run unit :=
  HandleControlMessage (runtime content) cfg client topicVerifier topicBuilder
    registrar resolver recorder sources client control_topic control_payload.

(** The client that the scenarios register. *)
Definition registered (handshakePayload : gmap string any) : RhcClient :=
  rhcClient_of "abc" "account-1" handshakePayload.

(** The reconnect command that S3 publishes. *)
Definition reconnect_published : string * Z * bool * list Byte.byte :=
  ("redhat/insights/abc/control/out", 1, false,
   String.list_byte_of_string "control 6ba7b810-9dad-11d1-80b4-00c04fd430c8").
End Scenario.

(** ** Counters, senders, subscriptions and broker options *)

(** The increments of a counter in a trace. *)
Definition counter_incs (counter : string) (t : list Event) : nat :=
  length (List.filter
            (λ e, match e with
                  | CounterInc c => String.eqb c counter
                  | _ => false
                  end) t).

(** What the handling of a connection status does: it logs, calls the
    collaborators, publishes, and waits for the token of a publish. *)
Inductive handshake_event : Event → Prop :=
| handshake_Log level message : handshake_event (Log level message)
| handshake_Publish topic qos retained payload :
    handshake_event (Call_Publish topic qos retained payload)
| handshake_Go t : handshake_event (Go (go_Wait t))
| handshake_call e : is_collaborator_call e = true → handshake_event e.

Section Senders.
Context (rt : Runtime).

(** [sendControlMessage] returns [(nil, err)] when the envelope cannot be
    minted, and the id with what [sendMessage] returns otherwise. *)
Definition sendControlMessage (mqttClient : MQTT.Client) (topic : string)
    (qos : Z) (clientID : domain.ClientID) (content : CommandMessageContent)
  : Run (option UUID * option error) :=
  match buildControlMessage rt content with
  | Err err => mret (None, Some err)
  | Ok (messageID, message) =>
      log DebugLevel "Sending control message to connected client";;
      err ← sendMessage rt mqttClient clientID messageID topic qos message;
      mret (Some messageID, err)
  end.
End Senders.

(** ** The subscriptions *)

(** [Subscriber{Topic, EntryPoint, Qos}]. *)
Record Subscriber : Type := {
  Topic : string;
  EntryPoint : MQTT.Client → MQTT.Message → Run unit;
  Qos : Z;
}.

(** [MQTT.Client], by what [Subscribe] answers for a topic and a QoS: the
    token of the subscription. *)
Record Subscriptions : Type := {
  Subscribe : string → Z → MQTT.Token;
}.

(** What the connect handler does. *)
Inductive SubscribeEvent : Type :=
| Subscribe_Log (level : Level) (message : string)
| Call_Subscribe (topic : string) (qos : Z).

(** The connect handler that [RegisterSubscribers] installs: the loop over
    the subscribers. The token is waited for before its error is read;
    [logger.Fatalf] ends the process. *)
Fixpoint RegisterSubscribers_onConnect (subscribers : list Subscriber)
    (client : Subscriptions) : list SubscribeEvent * Outcome unit :=
  match subscribers with
  | [] => ([], Returned tt)
  | subscriber :: rest =>
      let attempt :=
        [ Subscribe_Log InfoLevel "Subscribing to MQTT topic: %s - QOS: %d\n";
          Call_Subscribe (Topic subscriber) (Qos subscriber) ] in
      match MQTT.Error (Subscribe client (Topic subscriber) (Qos subscriber)) with
      | Some _ =>
          (attempt ++
           [Subscribe_Log FatalLevel "Subscribing to MQTT topic (%s) failed"],
           Exited 1)
      | None =>
          let '(t, o) := RegisterSubscribers_onConnect rest client in
          (attempt ++ t, o)
      end
  end.

(** The subscriptions asked of the broker, in order. *)
Definition calls_Subscribe (t : list SubscribeEvent) : list (string * Z) :=
  omap (λ e, match e with
             | Call_Subscribe topic qos => Some (topic, qos)
             | _ => None
             end) t.

(** ** The options of the broker connection (package [main]) *)

Module tls_utils.
(** The [TlsConfigFunc]s that [buildBrokerTlsConfigFuncList] builds. *)
Inductive TlsConfigFunc : Type :=
| WithCert (certFile keyFile : string)
| WithCACerts (caCertFile : string)
| WithSkipVerify.
End tls_utils.

(** The fields of [config.Config] that [buildBrokerTlsConfigFuncList]
    reads. *)
Record TlsSettings : Type := {
  MqttBrokerTlsCertFile : string;
  MqttBrokerTlsKeyFile : string;
  MqttBrokerTlsCACertFile : string;
  MqttBrokerTlsSkipVerify : bool;
}.

(** [s != ""]. *)
Definition nonempty (s : string) : bool := negb (String.eqb s "").

(** [buildBrokerTlsConfigFuncList] returns its list and an error. *)
Definition buildBrokerTlsConfigFuncList (cfg : TlsSettings)
  : list tls_utils.TlsConfigFunc * option error :=
  let tlsConfigFuncs := [] in
  let continue (tlsConfigFuncs : list tls_utils.TlsConfigFunc) :=
    let tlsConfigFuncs :=
      if nonempty (MqttBrokerTlsCACertFile cfg)
      then tlsConfigFuncs ++ [tls_utils.WithCACerts (MqttBrokerTlsCACertFile cfg)]
      else tlsConfigFuncs in
    let tlsConfigFuncs :=
      if MqttBrokerTlsSkipVerify cfg
      then tlsConfigFuncs ++ [tls_utils.WithSkipVerify]
      else tlsConfigFuncs in
    (tlsConfigFuncs, None) in
  if nonempty (MqttBrokerTlsCertFile cfg) && nonempty (MqttBrokerTlsKeyFile cfg)
  then continue (tlsConfigFuncs ++
                 [tls_utils.WithCert (MqttBrokerTlsCertFile cfg)
                    (MqttBrokerTlsKeyFile cfg)])
  else if nonempty (MqttBrokerTlsCertFile cfg)
          || nonempty (MqttBrokerTlsKeyFile cfg)
  then (tlsConfigFuncs,
        Some (errors_New "Cert or key file specified without the other"))
  else continue tlsConfigFuncs.

(** The options of [package mqtt] that
    [buildMessageHandlerMqttBrokerConfigFuncList] builds, over the types of
    a TLS configuration and of a JWT generator. *)
Inductive MqttClientOptionsFunc (TlsConfig JwtGenerator : Type) : Type :=
| WithTlsConfig (tlsConfig : TlsConfig)
| WithJwtAsHttpHeader (jwtGenerator : JwtGenerator)
| WithJwtReconnectingHandler (jwtGenerator : JwtGenerator)
| WithClientID (clientID : string)
| WithCleanSession (cleanSession : bool)
| WithResumeSubs (resumeSubs : bool).
Arguments WithTlsConfig {TlsConfig JwtGenerator} tlsConfig.
Arguments WithJwtAsHttpHeader {TlsConfig JwtGenerator} jwtGenerator.
Arguments WithJwtReconnectingHandler {TlsConfig JwtGenerator} jwtGenerator.
Arguments WithClientID {TlsConfig JwtGenerator} clientID.
Arguments WithCleanSession {TlsConfig JwtGenerator} cleanSession.
Arguments WithResumeSubs {TlsConfig JwtGenerator} resumeSubs.

(** The fields of [config.Config] that
    [buildMessageHandlerMqttBrokerConfigFuncList] reads. *)
Record BrokerSettings : Type := {
  MqttBrokerJwtGeneratorImpl : string;
  MqttClientId : string;
  MqttCleanSession : bool;
  MqttResumeSubs : bool;
}.

Section BrokerOptions.
Context {TlsConfig JwtGenerator : Type}.
(** [url.Parse], by the scheme of the URL, and [jwt_utils.NewJwtGenerator]
    under the configuration it is given. *)
Context (url_Parse : string → result string)
  (NewJwtGenerator : string → result JwtGenerator).

(** [tlsConfig] is a pointer: [None] is [nil]. *)
Definition buildMessageHandlerMqttBrokerConfigFuncList (brokerUrl : string)
    (tlsConfig : option TlsConfig) (cfg : BrokerSettings)
  : Run (result (list (MqttClientOptionsFunc TlsConfig JwtGenerator))) :=
  match url_Parse brokerUrl with
  | Err err =>
      log ErrorLevel "Unable to determine protocol for the MQTT connection";;
      mret (Err err)
  | Ok scheme =>
      let brokerConfigFuncs := [] in
      let brokerConfigFuncs :=
        match tlsConfig with
        | Some tlsConfig => brokerConfigFuncs ++ [WithTlsConfig tlsConfig]
        | None => brokerConfigFuncs
        end in
      let continue brokerConfigFuncs :=
        let brokerConfigFuncs :=
          if nonempty (MqttClientId cfg)
          then brokerConfigFuncs ++ [WithClientID (MqttClientId cfg)]
          else brokerConfigFuncs in
        let brokerConfigFuncs :=
          brokerConfigFuncs ++ [WithCleanSession (MqttCleanSession cfg)] in
        let brokerConfigFuncs :=
          brokerConfigFuncs ++ [WithResumeSubs (MqttResumeSubs cfg)] in
        mret (Ok brokerConfigFuncs) in
      if String.eqb scheme "wss" then
        match NewJwtGenerator (MqttBrokerJwtGeneratorImpl cfg) with
        | Err err =>
            log ErrorLevel
              "Unable to instantiate a JWT generator for the MQTT connection";;
            mret (Err err)
        | Ok jwtGenerator =>
            continue (brokerConfigFuncs
                      ++ [WithJwtAsHttpHeader jwtGenerator]
                      ++ [WithJwtReconnectingHandler jwtGenerator])
        end
      else continue brokerConfigFuncs
  end.
End BrokerOptions.

(** ** Further scenarios *)

Module Scenario2.
(** An envelope of the [event] type. *)
Definition event_envelope : ControlMessage :=
  {| MessageType := "event";
     MessageID := "m2";
     Version := 1;
     Sent := 0;
     Content := String "disconnect" |}.

(** A runtime whose decoder reads the frame as [event_envelope]. *)
Definition event_runtime : Runtime :=
  {| uuid_NewRandom := Ok "6ba7b810-9dad-11d1-80b4-00c04fd430c8";
     time_Now := 0;
     json_Marshal m :=
       Ok (String.list_byte_of_string (MessageType m +:+ " " +:+ MessageID m));
     json_Unmarshal _ := Ok event_envelope |}.

(** S2 with two more keys, in an envelope of another id, version and time. *)
Definition online_annotated : gmap string any :=
  <[ "client_version" := String "1.2.3" ]>
  (<[ "tags" := Slice [String "a"; String "b"] ]>
  (Scenario.online_with (MapStringAny Scenario.catalog_SourceRef))).

(** Online, with canonical facts and [dispatchers] a list instead of an
    object. *)
Definition online_facts_dispatchers_list : gmap string any :=
  <[ "state" := String "online" ]>
  (<[ "canonical_facts" := MapStringAny {[ "fqdn" := String "h.x" ]} ]>
  {[ "dispatchers" := Slice [] ]}).

Definition annotated_envelope : ControlMessage :=
  {| MessageType := "connection-status";
     MessageID := "m3";
     Version := 2;
     Sent := 0;
     Content := MapStringAny online_annotated |}.
End Scenario2.

(** ** Reasoning about runs *)

Lemma events_bind {A B} (m : Run A) (f : A → Run B) :
  events (m ≫= f) =
  events m ++ match outcome m with
              | Returned a => events (f a)
              | _ => []
              end.
Proof.
  unfold mbind, Run_bind, run_bind.
  destruct (outcome m); simpl; by rewrite ?app_nil_r.
Qed.

Lemma outcome_bind {A B} (m : Run A) (f : A → Run B) :
  outcome (m ≫= f) =
  match outcome m with
  | Returned a => outcome (f a)
  | Panicked reason => Panicked reason
  | Exited code => Exited code
  end.
Proof. unfold mbind, Run_bind, run_bind. by destruct (outcome m). Qed.

(** Unfolds the monad and the effect primitives and evaluates. *)
Ltac run_simpl :=
  repeat (cbn [mbind mret Run_bind Run_ret run_bind run_ret emit log call
               panic log_Fatal assert_map assert_string events outcome
               app] in *).

(** The observations distribute over the concatenation of traces. *)
Lemma calls_MapClientIdToAccountId_app t1 t2 :
  calls_MapClientIdToAccountId (t1 ++ t2) =
  calls_MapClientIdToAccountId t1 ++ calls_MapClientIdToAccountId t2.
Proof. apply omap_app. Qed.

Lemma calls_Register_app t1 t2 :
  calls_Register (t1 ++ t2) = calls_Register t1 ++ calls_Register t2.
Proof. apply omap_app. Qed.

Lemma calls_Unregister_app t1 t2 :
  calls_Unregister (t1 ++ t2) = calls_Unregister t1 ++ calls_Unregister t2.
Proof. apply omap_app. Qed.

Lemma calls_RecordConnectedClient_app t1 t2 :
  calls_RecordConnectedClient (t1 ++ t2) =
  calls_RecordConnectedClient t1 ++ calls_RecordConnectedClient t2.
Proof. apply omap_app. Qed.

Lemma calls_RegisterWithSources_app t1 t2 :
  calls_RegisterWithSources (t1 ++ t2) =
  calls_RegisterWithSources t1 ++ calls_RegisterWithSources t2.
Proof. apply omap_app. Qed.

Lemma calls_Publish_app t1 t2 :
  calls_Publish (t1 ++ t2) = calls_Publish t1 ++ calls_Publish t2.
Proof. apply omap_app. Qed.

Lemma collaborator_calls_app t1 t2 :
  collaborator_calls (t1 ++ t2) = collaborator_calls t1 ++ collaborator_calls t2.
Proof. apply List.filter_app. Qed.

Lemma spawned_app t1 t2 : spawned (t1 ++ t2) = spawned t1 ++ spawned t2.
Proof. apply omap_app. Qed.

Create Rewrite HintDb obs.
#[local] Hint Rewrite calls_MapClientIdToAccountId_app calls_Register_app
  calls_Unregister_app calls_RecordConnectedClient_app
  calls_RegisterWithSources_app calls_Publish_app collaborator_calls_app
  spawned_app : obs.

(** Destructs the scrutinee of the first [match] of the goal. *)
Ltac case_match_goal :=
  match goal with
  | |- context [assert_map ?v] => is_var v; destruct v
  | |- context [assert_string ?v] => is_var v; destruct v
  | |- context [match ?x with _ => _ end] => destruct x eqn:?
  end.

Section Footprints.
Context (rt : Runtime).

Lemma sendReconnect_footprint client topicBuilder qos clientID delay :
  Forall reconnect_event
    (events (sendReconnectMessageToClient rt client topicBuilder qos clientID delay)).
Proof.
  unfold sendReconnectMessageToClient, sendMessage.
  repeat (case_match_goal; run_simpl); repeat constructor.
Qed.

Lemma sendReconnect_returns client topicBuilder qos clientID delay :
  ∃ err, outcome (sendReconnectMessageToClient rt client topicBuilder qos clientID delay)
         = Returned err.
Proof.
  unfold sendReconnectMessageToClient, sendMessage.
  repeat (case_match_goal; run_simpl); eauto.
Qed.

Lemma sendReconnect_publish_le client topicBuilder qos clientID delay :
  (length (calls_Publish
     (events (sendReconnectMessageToClient rt client topicBuilder qos clientID delay)))
   ≤ 1)%nat.
Proof.
  unfold sendReconnectMessageToClient, sendMessage.
  repeat (case_match_goal; run_simpl); simpl; lia.
Qed.

(** The reconnect command that is sent when the envelope is minted and
    encoded. *)
Lemma sendReconnect_built client topicBuilder qos clientID delay
    messageID payload :
  uuid_NewRandom rt = Ok messageID →
  json_Marshal rt (reconnect_envelope messageID (time_Now rt) delay)
    = Ok payload →
  let topic := BuildOutgoingControlTopic topicBuilder clientID in
  sendReconnectMessageToClient rt client topicBuilder qos clientID delay =
  MkRun [ Log DebugLevel "Sending reconnect message to connected client";
          Log DebugLevel "Sending message to connected client on topic: ";
          Call_Publish topic qos false payload;
          Go (go_Wait (MQTT.Publish client topic qos false payload)) ]
        (Returned None).
Proof.
  intros Hid Hm topic.
  unfold sendReconnectMessageToClient, buildReconnectMessage,
    buildControlMessage, sendMessage.
  rewrite Hid. unfold reconnect_envelope in Hm. run_simpl. by rewrite Hm.
Qed.

Lemma processDispatchers_footprint sourcesRecorder identity account clientID p :
  Forall enroll_event
    (events (processDispatchers sourcesRecorder identity account clientID p)).
Proof.
  unfold processDispatchers.
  repeat (case_match_goal; run_simpl); repeat constructor.
Qed.
End Footprints.

Lemma reconnect_footprint_obs t :
  Forall reconnect_event t →
  collaborator_calls t = [] ∧ calls_MapClientIdToAccountId t = [] ∧
  calls_Register t = [] ∧ calls_Unregister t = [] ∧
  calls_RecordConnectedClient t = [] ∧ calls_RegisterWithSources t = [].
Proof.
  induction 1 as [|e t He _ IH]; [done|].
  destruct IH as (?&?&?&?&?&?). by destruct He; simpl.
Qed.

Lemma enroll_footprint_obs t :
  Forall enroll_event t →
  calls_Publish t = [] ∧ spawned t = [] ∧ calls_MapClientIdToAccountId t = [] ∧
  calls_Register t = [] ∧ calls_Unregister t = [] ∧
  calls_RecordConnectedClient t = [].
Proof.
  induction 1 as [|e t He _ IH]; [done|].
  destruct IH as (?&?&?&?&?&?). by destruct He; simpl.
Qed.

Section Paths.
Context (rt : Runtime) (cfg : Config) (client : MQTT.Client)
  (topicBuilder : TopicBuilder) (connectionRegistrar : ConnectionRegistrar)
  (accountResolver : AccountIdResolver)
  (connectedClientRecorder : ConnectedClientRecorder)
  (sourcesRecorder : SourcesRecorder).

#[local] Abbreviation online clientID msg :=
  (handleOnlineMessage rt client clientID msg cfg topicBuilder accountResolver
     connectionRegistrar connectedClientRecorder sourcesRecorder).
#[local] Abbreviation reconnect clientID :=
  (sendReconnectMessageToClient rt client topicBuilder
     (MqttControlPublishQoS cfg) clientID (InvalidHandshakeReconnectDelay cfg)).

(** The inventory gate performs no effect. *)
Lemma gate_events p : events (shouldHostBeRegisteredWithInventory p) = [].
Proof.
  unfold shouldHostBeRegisteredWithInventory, doesHostHavePlaybookWorker.
  repeat (case_match_goal; run_simpl); done.
Qed.

Lemma gate_never_exits p code :
  outcome (shouldHostBeRegisteredWithInventory p) ≠ Exited code.
Proof.
  unfold shouldHostBeRegisteredWithInventory, doesHostHavePlaybookWorker.
  repeat (case_match_goal; run_simpl); done.
Qed.

(** Step 1 fails: the resolver returns an error. *)
Lemma online_resolver_err clientID msg err :
  MapClientIdToAccountId accountResolver clientID = Err err →
  online clientID msg =
  MkRun ([ Log DebugLevel "handling online connection-status message";
           Call_MapClientIdToAccountId clientID;
           Log ErrorLevel "Failed to resolve client id to account number" ]
         ++ events (reconnect clientID))
        (Returned (Some err)).
Proof.
  intros Hr. unfold handleOnlineMessage. run_simpl. rewrite Hr. run_simpl.
  destruct (sendReconnect_returns rt client topicBuilder
              (MqttControlPublishQoS cfg) clientID
              (InvalidHandshakeReconnectDelay cfg)) as [e He].
  rewrite events_bind, outcome_bind, He. simpl. by rewrite app_nil_r.
Qed.

(** The envelope's content is not a map: the assertion panics after the
    resolver has answered. *)
Lemma online_content_panic clientID msg identity account :
  MapClientIdToAccountId accountResolver clientID = Ok (identity, account) →
  (∀ p, Content msg ≠ MapStringAny p) →
  ∃ reason,
    online clientID msg =
    MkRun [ Log DebugLevel "handling online connection-status message";
            Call_MapClientIdToAccountId clientID ]
          (Panicked reason).
Proof.
  intros Hr Hc. unfold handleOnlineMessage. run_simpl. rewrite Hr.
  destruct (Content msg) eqn:E; run_simpl; eauto. by destruct (Hc m).
Qed.

(** Step 2 fails: the registrar returns an error. *)
Lemma online_register_err clientID msg p identity account err :
  MapClientIdToAccountId accountResolver clientID = Ok (identity, account) →
  Content msg = MapStringAny p →
  Register connectionRegistrar (rhcClient_of clientID account p) = Some err →
  online clientID msg =
  MkRun ([ Log DebugLevel "handling online connection-status message";
           Call_MapClientIdToAccountId clientID;
           Call_Register (rhcClient_of clientID account p) ]
         ++ events (reconnect clientID))
        (Returned (Some err)).
Proof.
  intros Hr Hc Hreg. unfold handleOnlineMessage. run_simpl. rewrite Hr, Hc.
  run_simpl. fold (rhcClient_of clientID account p). rewrite Hreg. run_simpl.
  destruct (sendReconnect_returns rt client topicBuilder
              (MqttControlPublishQoS cfg) clientID
              (InvalidHandshakeReconnectDelay cfg)) as [e He].
  rewrite events_bind, outcome_bind, He. simpl. by rewrite app_nil_r.
Qed.

(** The inventory gate panics on a [dispatchers] value that is not a map. *)
Lemma online_gate_panic clientID msg p identity account reason :
  MapClientIdToAccountId accountResolver clientID = Ok (identity, account) →
  Content msg = MapStringAny p →
  Register connectionRegistrar (rhcClient_of clientID account p) = None →
  outcome (shouldHostBeRegisteredWithInventory p) = Panicked reason →
  online clientID msg =
  MkRun [ Log DebugLevel "handling online connection-status message";
          Call_MapClientIdToAccountId clientID;
          Call_Register (rhcClient_of clientID account p) ]
        (Panicked reason).
Proof.
  intros Hr Hc Hreg Hg. unfold handleOnlineMessage. run_simpl. rewrite Hr, Hc.
  run_simpl. fold (rhcClient_of clientID account p). rewrite Hreg. run_simpl.
  rewrite events_bind, outcome_bind, Hg, gate_events. done.
Qed.

(** Step 4 fails: the gate is open and the recorder returns an error. *)
Lemma online_record_err clientID msg p identity account err :
  MapClientIdToAccountId accountResolver clientID = Ok (identity, account) →
  Content msg = MapStringAny p →
  Register connectionRegistrar (rhcClient_of clientID account p) = None →
  outcome (shouldHostBeRegisteredWithInventory p) = Returned true →
  RecordConnectedClient connectedClientRecorder identity
    (rhcClient_of clientID account p) = Some err →
  online clientID msg =
  MkRun ([ Log DebugLevel "handling online connection-status message";
           Call_MapClientIdToAccountId clientID;
           Call_Register (rhcClient_of clientID account p);
           Call_RecordConnectedClient identity (rhcClient_of clientID account p);
           Log ErrorLevel "Failed to record client id within the platform" ]
         ++ events (reconnect clientID))
        (Returned (Some err)).
Proof.
  intros Hr Hc Hreg Hg Hrec. unfold handleOnlineMessage. run_simpl.
  rewrite Hr, Hc. run_simpl. fold (rhcClient_of clientID account p).
  rewrite Hreg. run_simpl. rewrite events_bind, outcome_bind, Hg, gate_events.
  run_simpl. rewrite Hrec. run_simpl.
  destruct (sendReconnect_returns rt client topicBuilder
              (MqttControlPublishQoS cfg) clientID
              (InvalidHandshakeReconnectDelay cfg)) as [e He].
  rewrite events_bind, outcome_bind, He. simpl. by rewrite app_nil_r.
Qed.

(** Steps 1 to 4 succeed: the handshake goes on to the enrollment. *)
Lemma online_enroll clientID msg p identity account gate :
  MapClientIdToAccountId accountResolver clientID = Ok (identity, account) →
  Content msg = MapStringAny p →
  Register connectionRegistrar (rhcClient_of clientID account p) = None →
  outcome (shouldHostBeRegisteredWithInventory p) = Returned gate →
  (gate = true →
   RecordConnectedClient connectedClientRecorder identity
     (rhcClient_of clientID account p) = None) →
  let enroll := processDispatchers sourcesRecorder identity account clientID p in
  online clientID msg =
  MkRun ([ Log DebugLevel "handling online connection-status message";
           Call_MapClientIdToAccountId clientID;
           Call_Register (rhcClient_of clientID account p) ]
         ++ (if gate
             then [Call_RecordConnectedClient identity
                     (rhcClient_of clientID account p)]
             else [])
         ++ events enroll)
        (match outcome enroll with
         | Returned _ => Returned None
         | Panicked reason => Panicked reason
         | Exited code => Exited code
         end).
Proof.
  intros Hr Hc Hreg Hg Hrec enroll. unfold handleOnlineMessage. run_simpl.
  rewrite Hr, Hc. run_simpl. fold (rhcClient_of clientID account p).
  rewrite Hreg. run_simpl. rewrite events_bind, outcome_bind, Hg, gate_events.
  run_simpl. fold enroll. destruct gate.
  - rewrite Hrec by done. run_simpl. rewrite events_bind, outcome_bind.
    destruct (outcome enroll); simpl; by rewrite ?app_nil_r.
  - rewrite events_bind, outcome_bind.
    destruct (outcome enroll); simpl; by rewrite ?app_nil_r.
Qed.
End Paths.

Section Dispatch.
Context (rt : Runtime) (cfg : Config) (client : MQTT.Client)
  (topicBuilder : TopicBuilder) (connectionRegistrar : ConnectionRegistrar)
  (accountResolver : AccountIdResolver)
  (connectedClientRecorder : ConnectedClientRecorder)
  (sourcesRecorder : SourcesRecorder).

#[local] Abbreviation online clientID msg :=
  (handleOnlineMessage rt client clientID msg cfg topicBuilder accountResolver
     connectionRegistrar connectedClientRecorder sourcesRecorder).
#[local] Abbreviation status clientID msg :=
  (handleConnectionStatusMessage rt client clientID msg cfg topicBuilder
     connectionRegistrar accountResolver connectedClientRecorder
     sourcesRecorder).

(** Every run of [handleOnlineMessage] on a map goes one of the ways of
    [online_path]. *)
Lemma online_path_complete clientID msg p :
  Content msg = MapStringAny p →
  online_path rt cfg client topicBuilder connectionRegistrar accountResolver
    connectedClientRecorder sourcesRecorder clientID p (online clientID msg).
Proof.
  intros Hc.
  destruct (MapClientIdToAccountId accountResolver clientID)
    as [[identity account]|err] eqn:Hr.
  2: { rewrite (online_resolver_err _ _ _ _ _ _ _ _ _ _ _ Hr). by constructor. }
  destruct (Register connectionRegistrar (rhcClient_of clientID account p))
    as [err|] eqn:Hreg.
  { rewrite (online_register_err _ _ _ _ _ _ _ _ _ _ _ _ _ _ Hr Hc Hreg).
    by econstructor. }
  destruct (outcome (shouldHostBeRegisteredWithInventory p))
    as [gate|reason|code] eqn:Hg.
  - destruct gate.
    + destruct (RecordConnectedClient connectedClientRecorder identity
                  (rhcClient_of clientID account p)) as [err|] eqn:Hrec.
      * rewrite (online_record_err _ _ _ _ _ _ _ _ _ _ _ _ _ _
                   Hr Hc Hreg Hg Hrec).
        by econstructor.
      * rewrite (online_enroll _ _ _ _ _ _ _ _ _ _ _ _ _ true
                   Hr Hc Hreg Hg (λ _, Hrec)).
        by apply (path_enroll _ _ _ _ _ _ _ _ _ _ identity account true).
    + rewrite (online_enroll _ _ _ _ _ _ _ _ _ _ _ _ _ false Hr Hc Hreg Hg).
      * by apply (path_enroll _ _ _ _ _ _ _ _ _ _ identity account false).
      * done.
  - rewrite (online_gate_panic _ _ _ _ _ _ _ _ _ _ _ _ _ _ Hr Hc Hreg Hg).
    by econstructor.
  - by destruct (gate_never_exits p code).
Qed.

(** A connection status whose state is online is handled by
    [handleOnlineMessage]. *)
Lemma status_online clientID msg p :
  Content msg = MapStringAny p →
  p !! "state" = Some (String "online") →
  status clientID msg =
  MkRun (Log DebugLevel "handling connection status control message"
         :: events (online clientID msg))
        (outcome (online clientID msg)).
Proof.
  intros Hc Hs. unfold handleConnectionStatusMessage. rewrite Hc. run_simpl.
  rewrite Hs. simpl. by destruct (online clientID msg).
Qed.

(** A string is not the state the handler compares it with. *)
Lemma eq_string_false v s : v ≠ String s → eq_string v s = false.
Proof.
  intros Hv. destruct v; simpl; try done.
  case_bool_decide; [by subst|done].
Qed.
End Dispatch.

(** Rewrites the observations of a trace built with [++] and [::]. *)
Ltac obs := simpl; autorewrite with obs; simpl.

Section Enrollment.
Context (sourcesRecorder : SourcesRecorder)
  (identity : domain.Identity) (account : domain.AccountID)
  (clientID : domain.ClientID).

#[local] Abbreviation enroll p :=
  (processDispatchers sourcesRecorder identity account clientID p).

(** The enrollment calls the sources recorder only on its way to a return. *)
Lemma enroll_called_returns p :
  calls_RegisterWithSources (events (enroll p)) ≠ [] →
  outcome (enroll p) = Returned tt.
Proof.
  unfold processDispatchers.
  repeat (case_match_goal; run_simpl); simpl; done.
Qed.

(** The enrollment of a catalog entry with its four fields. *)
Lemma enroll_complete p d c applicationType sourceName sourceRef sourceType :
  p !! dispatchersKey = Some (MapStringAny d) →
  d !! catalogDispatcherKey = Some (MapStringAny c) →
  c !! catalogApplicationType = Some (String applicationType) →
  c !! catalogSourceName = Some (String sourceName) →
  c !! catalogSourceRef = Some (String sourceRef) →
  c !! catalogSourceType = Some (String sourceType) →
  calls_RegisterWithSources (events (enroll p)) =
    [(identity, account, clientID,
      (sourceRef, sourceName, sourceType, applicationType))] ∧
  outcome (enroll p) = Returned tt.
Proof.
  intros Hd Hc Ha Hn Hr Ht. unfold processDispatchers.
  rewrite Hd. run_simpl. rewrite Hc. run_simpl. rewrite Ha, Ht, Hr, Hn.
  run_simpl. by case_match_goal.
Qed.

(** The enrollment of a catalog entry that lacks one of the four fields. *)
Lemma enroll_incomplete p d c :
  p !! dispatchersKey = Some (MapStringAny d) →
  d !! catalogDispatcherKey = Some (MapStringAny c) →
  c !! catalogApplicationType = None ∨ c !! catalogSourceName = None ∨
  c !! catalogSourceRef = None ∨ c !! catalogSourceType = None →
  enroll p =
  MkRun [Log DebugLevel
           "Found a catalog dispatcher, but missing some of the required fields"]
        (Returned tt).
Proof.
  intros Hd Hc Hnone. unfold processDispatchers.
  rewrite Hd. run_simpl. rewrite Hc. run_simpl.
  destruct (c !! catalogApplicationType), (c !! catalogSourceType),
    (c !! catalogSourceRef), (c !! catalogSourceName); try done.
  by destruct Hnone as [H|[H|[H|H]]].
Qed.
End Enrollment.

(** On a payload whose [dispatchers] is a map or absent, the gate of the code
    is the gate of the specification. *)
Lemma gate_shaped p :
  dispatchers_shaped p = true →
  outcome (shouldHostBeRegisteredWithInventory p) = Returned (inventory_gate p).
Proof.
  unfold dispatchers_shaped, shouldHostBeRegisteredWithInventory,
    doesHostHavePlaybookWorker, doesHostHaveCanonicalFacts, inventory_gate,
    dispatchersKey, canonicalFactsKey, playbookWorkerDispatcherKey.
  intros Hs. destruct (p !! "dispatchers") as [[]|]; try done;
    by case_bool_decide.
Qed.

(** When the gate of the code lets a payload through, so does the gate of
    the specification. *)
Lemma gate_open p :
  outcome (shouldHostBeRegisteredWithInventory p) = Returned true →
  inventory_gate p = true.
Proof.
  unfold shouldHostBeRegisteredWithInventory,
    doesHostHavePlaybookWorker, doesHostHaveCanonicalFacts, inventory_gate,
    dispatchersKey, canonicalFactsKey, playbookWorkerDispatcherKey.
  case_bool_decide; [|done].
  destruct (p !! "dispatchers") as [[]|]; run_simpl; try done.
  simpl. congruence.
Qed.

(** Rewrites with the equations [f l = []] of the context. *)
Ltac fp_rewrite :=
  repeat match goal with
  | H : ?f ?l = [] |- _ => is_var l; rewrite ?H in *; clear H
  end.

(** A member of an observation that is empty. *)
Ltac obs_in H := simpl in H; autorewrite with obs in H; simpl in H.

(** The observations of the events of a reconnect and of an enrollment. *)
Ltac footprints :=
  repeat match goal with
  | |- context [events (sendReconnectMessageToClient ?rt ?c ?tb ?q ?id ?d)] =>
      let H := fresh "Hfp" in
      pose proof (reconnect_footprint_obs _
                    (sendReconnect_footprint rt c tb q id d)) as H;
      pose proof (sendReconnect_publish_le rt c tb q id d);
      destruct H as (?&?&?&?&?&?);
      let l := fresh "l" in
      set (l := events (sendReconnectMessageToClient rt c tb q id d)) in *;
      clearbody l
  | |- context [events (processDispatchers ?s ?i ?a ?c ?p)] =>
      let H := fresh "Hfp" in
      pose proof (enroll_footprint_obs _
                    (processDispatchers_footprint s i a c p)) as H;
      destruct H as (?&?&?&?&?&?);
      let l := fresh "l" in
      set (l := events (processDispatchers s i a c p)) in *;
      clearbody l
  end.

(** ** The handshake *)

Section Handshake.
Context (rt : Runtime) (cfg : Config) (client : MQTT.Client)
  (topicBuilder : TopicBuilder) (connectionRegistrar : ConnectionRegistrar)
  (accountResolver : AccountIdResolver)
  (connectedClientRecorder : ConnectedClientRecorder)
  (sourcesRecorder : SourcesRecorder).

#[local] Abbreviation handshake clientID msg :=
  (handleConnectionStatusMessage rt client clientID msg cfg topicBuilder
     connectionRegistrar accountResolver connectedClientRecorder
     sourcesRecorder).

(** C8. An offline connection status calls [Unregister] once, with the
    client id, calls no other collaborator, publishes nothing, starts no
    goroutine, and returns no error. *)
Theorem offline_only_unregisters clientID msg handshakePayload :
  Content msg = MapStringAny handshakePayload →
  handshakePayload !! "state" = Some (String "offline") →
  let r := handshake clientID msg in
  outcome r = Returned None ∧
  collaborator_calls (events r) = [Call_Unregister clientID] ∧
  calls_Publish (events r) = [] ∧
  spawned (events r) = [].
Proof.
  intros Hc Hs r. subst r. unfold handleConnectionStatusMessage.
  rewrite Hc. run_simpl. by rewrite Hs.
Qed.

(** C9. A connection status whose state is missing, or is neither online nor
    offline, is dropped with the error "Invalid connection state": nothing is
    published and no collaborator, the registrar included, is called. *)
Theorem invalid_state_dropped clientID msg handshakePayload :
  Content msg = MapStringAny handshakePayload →
  (∀ v, handshakePayload !! "state" = Some v →
        v ≠ String "online" ∧ v ≠ String "offline") →
  let r := handshake clientID msg in
  outcome r = Returned (Some (errors_New "Invalid connection state")) ∧
  calls_Publish (events r) = [] ∧
  calls_Register (events r) = [] ∧
  calls_Unregister (events r) = [] ∧
  collaborator_calls (events r) = [] ∧
  spawned (events r) = [].
Proof.
  intros Hc Hs r. subst r. unfold handleConnectionStatusMessage.
  rewrite Hc. run_simpl.
  destruct (handshakePayload !! "state") as [v|]; [|done].
  destruct (Hs v eq_refl) as [Hon Hoff].
  by rewrite (eq_string_false _ _ Hon), (eq_string_false _ _ Hoff).
Qed.

(** C5. When the resolver returns an error for an online connection status,
    [Register] is not called, the resolver is the only collaborator called,
    and one message is published, on the outgoing control topic of the
    client, at the configured QoS and not retained: the encoding of a
    [control] envelope of version 1 whose content is the command [reconnect]
    with the configured delay. *)
Theorem resolver_error_reconnects clientID msg handshakePayload err
    messageID payload :
  Content msg = MapStringAny handshakePayload →
  handshakePayload !! "state" = Some (String "online") →
  MapClientIdToAccountId accountResolver clientID = Err err →
  uuid_NewRandom rt = Ok messageID →
  json_Marshal rt
    {| MessageType := "control";
       MessageID := messageID;
       Version := 1;
       Sent := time_Now rt;
       Content := CommandMessageContentPtr
                    {| Command := "reconnect";
                       Arguments :=
                         {[ "delay" := InvalidHandshakeReconnectDelay cfg ]} |}
    |} = Ok payload →
  let r := handshake clientID msg in
  outcome r = Returned (Some err) ∧
  calls_Register (events r) = [] ∧
  collaborator_calls (events r) = [Call_MapClientIdToAccountId clientID] ∧
  calls_Publish (events r) =
    [(BuildOutgoingControlTopic topicBuilder clientID,
      MqttControlPublishQoS cfg, false, payload)].
Proof.
  intros Hc Hs Hr Hid Hm r. subst r.
  rewrite (status_online _ _ _ _ _ _ _ _ _ _ _ Hc Hs).
  rewrite (online_resolver_err _ _ _ _ _ _ _ _ _ _ _ Hr).
  rewrite (sendReconnect_built _ _ _ _ _ _ _ _ Hid Hm).
  done.
Qed.

(** C7. When the sources recorder is called in an online handshake and
    returns an error, the handler returns no error, publishes nothing,
    starts no goroutine, and does not call [Unregister]: the one call of
    [Register] stands. *)
Theorem sources_error_not_fatal clientID msg handshakePayload
    identity account clientID' sourceRef sourceName sourceType applicationType
    err :
  Content msg = MapStringAny handshakePayload →
  handshakePayload !! "state" = Some (String "online") →
  let r := handshake clientID msg in
  In (identity, account, clientID',
      (sourceRef, sourceName, sourceType, applicationType))
     (calls_RegisterWithSources (events r)) →
  RegisterWithSources sourcesRecorder identity account clientID'
    sourceRef sourceName sourceType applicationType = Some err →
  outcome r = Returned None ∧
  calls_Publish (events r) = [] ∧
  spawned (events r) = [] ∧
  calls_Unregister (events r) = [] ∧
  length (calls_Register (events r)) = 1%nat.
Proof.
  intros Hc Hs r. subst r.
  rewrite (status_online _ _ _ _ _ _ _ _ _ _ _ Hc Hs). cbn [events outcome].
  intros Hin _. revert Hin.
  destruct (online_path_complete rt cfg client topicBuilder
              connectionRegistrar accountResolver connectedClientRecorder
              sourcesRecorder clientID msg handshakePayload Hc)
    as [e Hr|i a e Hr Hreg|i a reason Hr Hreg Hg|i a e Hr Hreg Hg Hrec
       |i a gate Hr Hreg Hg Hrec];
    cbn [events outcome].
  - footprints. obs. fp_rewrite. by intros [].
  - footprints. obs. fp_rewrite. by intros [].
  - by intros [].
  - footprints. obs. fp_rewrite. by intros [].
  - intros Hin.
    assert (calls_RegisterWithSources
              (events (processDispatchers sourcesRecorder i a clientID
                         handshakePayload)) ≠ []) as Hcalled.
    { intros Hnil. destruct gate; obs_in Hin; rewrite Hnil in Hin;
        by destruct Hin. }
    rewrite (enroll_called_returns _ _ _ _ _ Hcalled).
    clear Hin Hcalled. footprints. destruct gate; obs; by fp_rewrite.
Qed.

(** C4. In an online handshake whose [dispatchers] is absent or a map, the
    connected client recorder is called only if the payload has the key
    [canonical_facts] and its [dispatchers] map has the key
    [rhc-worker-playbook]; once the resolver and the registrar have answered
    without error it is called, once, with the identity and the registered
    client, exactly if both hold, and if one does not the handshake goes on
    with the enrollment of the sources. *)
Theorem inventory_recorded_iff_gate clientID msg handshakePayload :
  Content msg = MapStringAny handshakePayload →
  handshakePayload !! "state" = Some (String "online") →
  dispatchers_shaped handshakePayload = true →
  let r := handshake clientID msg in
  (calls_RecordConnectedClient (events r) ≠ [] →
   inventory_gate handshakePayload = true) ∧
  ∀ identity account,
    MapClientIdToAccountId accountResolver clientID = Ok (identity, account) →
    Register connectionRegistrar
      (rhcClient_of clientID account handshakePayload) = None →
    calls_RecordConnectedClient (events r) =
      (if inventory_gate handshakePayload
       then [(identity, rhcClient_of clientID account handshakePayload)]
       else []) ∧
    (inventory_gate handshakePayload = false →
     events r =
       [ Log DebugLevel "handling connection status control message";
         Log DebugLevel "handling online connection-status message";
         Call_MapClientIdToAccountId clientID;
         Call_Register (rhcClient_of clientID account handshakePayload) ]
       ++ events (processDispatchers sourcesRecorder identity account clientID
                    handshakePayload)).
Proof.
  intros Hc Hs Hshape r. subst r.
  rewrite (status_online _ _ _ _ _ _ _ _ _ _ _ Hc Hs). cbn [events outcome].
  pose proof (gate_shaped _ Hshape) as Hgate. split.
  - destruct (online_path_complete rt cfg client topicBuilder
                connectionRegistrar accountResolver connectedClientRecorder
                sourcesRecorder clientID msg handshakePayload Hc)
      as [e Hr|i a e Hr Hreg|i a reason Hr Hreg Hg|i a e Hr Hreg Hg Hrec
         |i a gate Hr Hreg Hg Hrec];
      cbn [events outcome].
    + footprints. obs. by fp_rewrite.
    + footprints. obs. by fp_rewrite.
    + done.
    + intros _. by apply gate_open.
    + destruct gate; [intros _; by apply gate_open|].
      footprints. obs. by fp_rewrite.
  - intros identity account Hr Hreg.
    destruct (inventory_gate handshakePayload) eqn:Hspec.
    + split; [|done].
      destruct (RecordConnectedClient connectedClientRecorder identity
                  (rhcClient_of clientID account handshakePayload))
        as [e|] eqn:Hrec.
      * rewrite (online_record_err _ _ _ _ _ _ _ _ _ _ _ _ _ _
                   Hr Hc Hreg Hgate Hrec).
        cbn [events]. footprints. obs. by fp_rewrite.
      * rewrite (online_enroll _ _ _ _ _ _ _ _ _ _ _ _ _ true
                   Hr Hc Hreg Hgate (λ _, Hrec)).
        cbn [events]. footprints. obs. by fp_rewrite.
    + assert (false = true →
              RecordConnectedClient connectedClientRecorder identity
                (rhcClient_of clientID account handshakePayload) = None)
        as Hrec by done.
      rewrite (online_enroll _ _ _ _ _ _ _ _ _ _ _ _ _ false
                 Hr Hc Hreg Hgate Hrec).
      cbn [events]. split; [|done]. footprints. obs. by fp_rewrite.
Qed.

(** C2, amended. In an online handshake that reaches the enrollment (the
    resolver, the registrar and, when the gate is open, the connected client
    recorder answer without error) and whose payload has a catalog
    dispatcher with string fields, the sources recorder is called exactly if
    the catalog has the four keys [ApplicationType], [SrcName], [SourceRef]
    and [SrcType]: with the four, it is called once with their values; when
    one is missing it is not called and the handshake returns no error. *)
Theorem sources_enrolled_iff_catalog_complete clientID msg handshakePayload
    dispatchers catalog identity account :
  Content msg = MapStringAny handshakePayload →
  handshakePayload !! "state" = Some (String "online") →
  handshakePayload !! "dispatchers" = Some (MapStringAny dispatchers) →
  dispatchers !! "catalog" = Some (MapStringAny catalog) →
  catalog_shaped catalog = true →
  MapClientIdToAccountId accountResolver clientID = Ok (identity, account) →
  Register connectionRegistrar
    (rhcClient_of clientID account handshakePayload) = None →
  (inventory_gate handshakePayload = true →
   RecordConnectedClient connectedClientRecorder identity
     (rhcClient_of clientID account handshakePayload) = None) →
  let r := handshake clientID msg in
  let complete :=
    is_Some (catalog !! "ApplicationType") ∧ is_Some (catalog !! "SrcName") ∧
    is_Some (catalog !! "SourceRef") ∧ is_Some (catalog !! "SrcType") in
  (calls_RegisterWithSources (events r) ≠ [] ↔ complete) ∧
  (∀ applicationType sourceName sourceRef sourceType,
     catalog !! "ApplicationType" = Some (String applicationType) →
     catalog !! "SrcName" = Some (String sourceName) →
     catalog !! "SourceRef" = Some (String sourceRef) →
     catalog !! "SrcType" = Some (String sourceType) →
     calls_RegisterWithSources (events r) =
       [(identity, account, clientID,
         (sourceRef, sourceName, sourceType, applicationType))]) ∧
  (¬ complete →
   calls_RegisterWithSources (events r) = [] ∧ outcome r = Returned None).
Proof.
  intros Hc Hs Hd Hcat Hshape Hr Hreg Hrec r complete. subst r.
  rewrite (status_online _ _ _ _ _ _ _ _ _ _ _ Hc Hs). cbn [events outcome].
  assert (dispatchers_shaped handshakePayload = true) as Hds.
  { unfold dispatchers_shaped, dispatchersKey. by rewrite Hd. }
  rewrite (online_enroll _ _ _ _ _ _ _ _ _ _ _ _ _ _
             Hr Hc Hreg (gate_shaped _ Hds) Hrec).
  cbn [events outcome].
  assert (∀ t, calls_RegisterWithSources
                 (Log DebugLevel "handling connection status control message"
                  :: [ Log DebugLevel
                         "handling online connection-status message";
                       Call_MapClientIdToAccountId clientID;
                       Call_Register
                         (rhcClient_of clientID account handshakePayload) ]
                  ++ (if inventory_gate handshakePayload
                      then [Call_RecordConnectedClient identity
                              (rhcClient_of clientID account handshakePayload)]
                      else [])
                  ++ t) = calls_RegisterWithSources t) as Hobs.
  { intros t. by destruct (inventory_gate handshakePayload). }
  rewrite Hobs. clear Hobs.
  assert (∀ applicationType sourceName sourceRef sourceType,
            catalog !! "ApplicationType" = Some (String applicationType) →
            catalog !! "SrcName" = Some (String sourceName) →
            catalog !! "SourceRef" = Some (String sourceRef) →
            catalog !! "SrcType" = Some (String sourceType) →
            calls_RegisterWithSources
              (events (processDispatchers sourcesRecorder identity account
                         clientID handshakePayload)) =
            [(identity, account, clientID,
              (sourceRef, sourceName, sourceType, applicationType))])
    as Hcomplete.
  { intros a n ref t Ha Hn Href Ht.
    by destruct (enroll_complete sourcesRecorder identity account clientID
                   _ _ _ _ _ _ _ Hd Hcat Ha Hn Href Ht). }
  assert (¬ complete →
          processDispatchers sourcesRecorder identity account clientID
            handshakePayload =
          MkRun [Log DebugLevel
                   "Found a catalog dispatcher, but missing some of the required fields"]
                (Returned tt)) as Hincomplete.
  { intros Hn. apply (enroll_incomplete _ _ _ _ _ _ _ Hd Hcat).
    unfold complete, catalogApplicationType, catalogSourceName,
      catalogSourceRef, catalogSourceType in *.
    destruct (catalog !! "ApplicationType"), (catalog !! "SrcName"),
      (catalog !! "SourceRef"), (catalog !! "SrcType"); auto.
    destruct Hn. eauto. }
  split; [|split].
  - split.
    + intros Hcalled. destruct (decide complete) as [|Hn]; [done|].
      rewrite (Hincomplete Hn) in Hcalled. done.
    + intros (Ha & Hn & Href & Ht). revert Hshape Hcomplete.
      unfold catalog_shaped, catalogApplicationType, catalogSourceName,
        catalogSourceRef, catalogSourceType.
      destruct Ha as [a ->], Hn as [n ->], Href as [ref ->], Ht as [t ->].
      destruct a, n, ref, t; try done.
      intros _ Hcomplete. by rewrite (Hcomplete _ _ _ _ eq_refl eq_refl eq_refl eq_refl).
  - done.
  - intros Hn. by rewrite (Hincomplete Hn).
Qed.
End Handshake.

(** ** Control frames *)

Section ControlFrames.
Context (rt : Runtime) (cfg : Config) (mqttClient client : MQTT.Client)
  (topicVerifier : TopicVerifier) (topicBuilder : TopicBuilder)
  (connectionRegistrar : ConnectionRegistrar)
  (accountResolver : AccountIdResolver)
  (connectedClientRecorder : ConnectedClientRecorder)
  (sourcesRecorder : SourcesRecorder).

#[local] Abbreviation handle topic payload :=
  (HandleControlMessage rt cfg mqttClient topicVerifier topicBuilder
     connectionRegistrar accountResolver connectedClientRecorder
     sourcesRecorder client topic payload).
#[local] Abbreviation handshake clientID msg :=
  (handleConnectionStatusMessage rt client clientID msg cfg topicBuilder
     connectionRegistrar accountResolver connectedClientRecorder
     sourcesRecorder).
#[local] Abbreviation online clientID msg :=
  (handleOnlineMessage rt client clientID msg cfg topicBuilder accountResolver
     connectionRegistrar connectedClientRecorder sourcesRecorder).

(** A frame that is handled as a connection status: its topic verifies, its
    payload is not empty and decodes to a connection-status envelope. *)
Lemma control_frame_status topic payload topicType clientID msg :
  VerifyIncomingTopic topicVerifier topic = Ok (topicType, clientID) →
  String.length payload ≠ 0%nat →
  json_Unmarshal rt payload = Ok msg →
  MessageType msg = "connection-status" →
  handle topic payload =
  MkRun ([ Log DebugLevel "Received control message on topic: %s\nMessage: %s\n";
           CounterInc "controlMessageReceivedCounter";
           Log DebugLevel "Got a control message:" ]
         ++ events (handshake clientID msg))
        (match outcome (handshake clientID msg) with
         | Returned _ => Returned tt
         | Panicked reason => Panicked reason
         | Exited code => Exited code
         end).
Proof.
  intros Hv Hp Hj Ht. unfold HandleControlMessage. run_simpl.
  rewrite Hv. rewrite bool_decide_eq_false_2 by done. rewrite Hj. run_simpl.
  rewrite Ht. cbn [String.eqb Ascii.eqb Bool.eqb].
  rewrite events_bind, outcome_bind.
  destruct (outcome (handshake clientID msg)); simpl; by rewrite ?app_nil_r.
Qed.

(** A connection status whose state is not online: the registrar is not asked
    to register and nothing is published. *)
Lemma status_not_online clientID msg p :
  Content msg = MapStringAny p →
  p !! "state" ≠ Some (String "online") →
  calls_Register (events (handshake clientID msg)) = [] ∧
  calls_Publish (events (handshake clientID msg)) = [].
Proof.
  intros Hc Hs. unfold handleConnectionStatusMessage. rewrite Hc. run_simpl.
  destruct (p !! "state") as [v|]; [|done].
  rewrite eq_string_false by congruence.
  by destruct (eq_string v "offline").
Qed.

Lemma state_online_dec (p : gmap string any) :
  p !! "state" = Some (String "online") ∨
  p !! "state" ≠ Some (String "online").
Proof.
  destruct (p !! "state") as [[| | |s| | |]|]; try (by right).
  destruct (decide (s = "online")) as [->|]; [by left|right; congruence].
Qed.

(** C1, amended. A frame that is handled as a connection status calls
    [Register] at most once and publishes at most once. With a reconnect
    envelope that is minted and encoded, an online handshake whose resolver
    fails publishes the reconnect and does not register; one whose
    registrar fails, or whose connected client recorder fails behind an open
    gate, registers once and publishes the reconnect; one in which no step
    fails registers once and publishes nothing. A state other than online
    does neither. *)
Theorem register_and_reconnect_by_step topic payload topicType clientID msg
    handshakePayload messageID encoded :
  VerifyIncomingTopic topicVerifier topic = Ok (topicType, clientID) →
  String.length payload ≠ 0%nat →
  json_Unmarshal rt payload = Ok msg →
  MessageType msg = "connection-status" →
  Content msg = MapStringAny handshakePayload →
  uuid_NewRandom rt = Ok messageID →
  json_Marshal rt
    (reconnect_envelope messageID (time_Now rt)
       (InvalidHandshakeReconnectDelay cfg)) = Ok encoded →
  let t := events (handle topic payload) in
  let reconnect :=
    (BuildOutgoingControlTopic topicBuilder clientID,
     MqttControlPublishQoS cfg, false, encoded) in
  let is_online := handshakePayload !! "state" = Some (String "online") in
  ((length (calls_Register t) ≤ 1)%nat ∧ (length (calls_Publish t) ≤ 1)%nat) ∧
  (∀ err,
     is_online →
     MapClientIdToAccountId accountResolver clientID = Err err →
     calls_Register t = [] ∧ calls_Publish t = [reconnect]) ∧
  (∀ identity account err,
     is_online →
     MapClientIdToAccountId accountResolver clientID = Ok (identity, account) →
     Register connectionRegistrar
       (rhcClient_of clientID account handshakePayload) = Some err →
     calls_Register t = [rhcClient_of clientID account handshakePayload] ∧
     calls_Publish t = [reconnect]) ∧
  (∀ identity account err,
     is_online →
     MapClientIdToAccountId accountResolver clientID = Ok (identity, account) →
     Register connectionRegistrar
       (rhcClient_of clientID account handshakePayload) = None →
     dispatchers_shaped handshakePayload = true →
     inventory_gate handshakePayload = true →
     RecordConnectedClient connectedClientRecorder identity
       (rhcClient_of clientID account handshakePayload) = Some err →
     calls_Register t = [rhcClient_of clientID account handshakePayload] ∧
     calls_Publish t = [reconnect]) ∧
  (∀ identity account,
     is_online →
     MapClientIdToAccountId accountResolver clientID = Ok (identity, account) →
     Register connectionRegistrar
       (rhcClient_of clientID account handshakePayload) = None →
     dispatchers_shaped handshakePayload = true →
     (inventory_gate handshakePayload = true →
      RecordConnectedClient connectedClientRecorder identity
        (rhcClient_of clientID account handshakePayload) = None) →
     calls_Register t = [rhcClient_of clientID account handshakePayload] ∧
     calls_Publish t = []) ∧
  (¬ is_online → calls_Register t = [] ∧ calls_Publish t = []).
Proof.
  intros Hv Hp Hj Ht Hc Hid Hm t reconnect is_online. subst t.
  rewrite (control_frame_status _ _ _ _ _ Hv Hp Hj Ht). cbn [events].
  pose proof (sendReconnect_built rt client topicBuilder
                (MqttControlPublishQoS cfg) clientID
                (InvalidHandshakeReconnectDelay cfg) _ _ Hid Hm) as Hsend.
  cbn zeta in Hsend.
  assert (∀ l, calls_Register
                 ([ Log DebugLevel
                      "Received control message on topic: %s\nMessage: %s\n";
                    CounterInc "controlMessageReceivedCounter";
                    Log DebugLevel "Got a control message:" ] ++ l)
               = calls_Register l) as HR by done.
  assert (∀ l, calls_Publish
                 ([ Log DebugLevel
                      "Received control message on topic: %s\nMessage: %s\n";
                    CounterInc "controlMessageReceivedCounter";
                    Log DebugLevel "Got a control message:" ] ++ l)
               = calls_Publish l) as HP by done.
  rewrite HR, HP. clear HR HP.
  split; [|split; [|split; [|split; [|split]]]].
  - destruct (state_online_dec handshakePayload) as [Hs|Hs].
    + rewrite (status_online _ _ _ _ _ _ _ _ _ _ _ Hc Hs). cbn [events].
      destruct (online_path_complete rt cfg client topicBuilder
                  connectionRegistrar accountResolver connectedClientRecorder
                  sourcesRecorder clientID msg handshakePayload Hc)
        as [e Hr|i a e Hr Hreg|i a reason Hr Hreg Hg|i a e Hr Hreg Hg Hrec
           |i a gate Hr Hreg Hg Hrec];
        cbn [events]; rewrite ?Hsend; footprints; try destruct gate; obs;
        fp_rewrite; simpl; lia.
    + destruct (status_not_online clientID msg _ Hc Hs) as [-> ->].
      simpl; lia.
  - intros err Hs Hr.
    rewrite (status_online _ _ _ _ _ _ _ _ _ _ _ Hc Hs).
    by rewrite (online_resolver_err _ _ _ _ _ _ _ _ _ _ _ Hr), Hsend.
  - intros identity account err Hs Hr Hreg.
    rewrite (status_online _ _ _ _ _ _ _ _ _ _ _ Hc Hs).
    by rewrite (online_register_err _ _ _ _ _ _ _ _ _ _ _ _ _ _ Hr Hc Hreg),
      Hsend.
  - intros identity account err Hs Hr Hreg Hshape Hgate Hrec.
    rewrite (status_online _ _ _ _ _ _ _ _ _ _ _ Hc Hs).
    pose proof (gate_shaped _ Hshape) as Hg. rewrite Hgate in Hg.
    by rewrite (online_record_err _ _ _ _ _ _ _ _ _ _ _ _ _ _
                  Hr Hc Hreg Hg Hrec), Hsend.
  - intros identity account Hs Hr Hreg Hshape Hrec.
    rewrite (status_online _ _ _ _ _ _ _ _ _ _ _ Hc Hs).
    rewrite (online_enroll _ _ _ _ _ _ _ _ _ _ _ _ _ _
               Hr Hc Hreg (gate_shaped _ Hshape) Hrec).
    cbn [events]. footprints.
    destruct (inventory_gate handshakePayload); obs; by fp_rewrite.
  - intros Hs. by destruct (status_not_online clientID msg _ Hc Hs) as [-> ->].
Qed.
End ControlFrames.

(** ** Forwarding to Kafka *)

(** C3, amended. The handler that writes to Kafka is [ControlMessageHandler]:
    for a frame whose topic verifies, of the control or of the data kind, it
    writes one record when the payload is not empty, whose value is the
    payload and whose headers are the topic and the message id in decimal,
    and none when the payload is empty. [DataMessageHandler] writes no
    record, whatever the frame. *)
Theorem kafka_records_of_frame (kafkaWriter : kafka.Writer)
    (topicVerifier : TopicVerifier) (client : MQTT.Client)
    (message : MQTT.Message) :
  (∀ topicType clientID,
     VerifyIncomingTopic topicVerifier (MQTT.Topic message)
       = Ok (topicType, clientID) →
     let t := all_events (events (ControlMessageHandler kafkaWriter
                                    topicVerifier client message)) in
     (MQTT.Payload message ≠ [] →
      calls_WriteMessages t =
        [kafka_record message (pretty (MQTT.MessageID message))]) ∧
     (MQTT.Payload message = [] → calls_WriteMessages t = [])) ∧
  calls_WriteMessages
    (all_events (events (DataMessageHandler client message))) = [].
Proof.
  split.
  - intros topicType clientID Hv t. subst t. unfold ControlMessageHandler.
    rewrite Hv. split; intros Hp.
    + rewrite bool_decide_eq_false_2 by by destruct (MQTT.Payload message).
      unfold all_events, calls_WriteMessages. simpl.
      by destruct (kafka.WriteMessages kafkaWriter _) as [e|];
        [destruct (errors_Is e context_Canceled)|].
    + by rewrite Hp.
  - unfold DataMessageHandler. run_simpl. by case_bool_decide.
Qed.

(** C6, amended. When the write to Kafka fails, the failure is logged at the
    error level, whatever the error; the process exits, after an entry at the
    fatal level, exactly if the error is not a cancellation; on a
    cancellation the goroutine returns and nothing is logged at the fatal
    level. *)
Theorem kafka_write_failure (kafkaWriter : kafka.Writer)
    (message : MQTT.Message) (mqttMessageID : string) (err : error) :
  kafka.WriteMessages kafkaWriter [kafka_record message mqttMessageID]
    = Some err →
  let r := run_goroutine (go_WriteMessages kafkaWriter message mqttMessageID) in
  logged ErrorLevel (events r) = ["Error writing MQTT message to kafka"] ∧
  (outcome r = Exited 1 ↔ errors_Is err context_Canceled = false) ∧
  (errors_Is err context_Canceled = false →
   logged FatalLevel (events r) = ["Failed writing to kafka"]) ∧
  (errors_Is err context_Canceled = true →
   outcome r = Returned tt ∧ logged FatalLevel (events r) = []).
Proof.
  intros Hw r. subst r. unfold run_goroutine, kafka_record in *.
  run_simpl. rewrite Hw. run_simpl.
  by destruct (errors_Is err context_Canceled).
Qed.

(** ** The shape of the payload *)

Section Shape.
Context (sourcesRecorder : SourcesRecorder)
  (identity : domain.Identity) (account : domain.AccountID)
  (clientID : domain.ClientID).

#[local] Abbreviation enroll p :=
  (processDispatchers sourcesRecorder identity account clientID p).

(** The enrollment of a payload of the asserted shape returns. *)
Lemma enroll_shaped_returns p :
  handshake_shaped p = true → outcome (enroll p) = Returned tt.
Proof.
  unfold handshake_shaped, catalog_shaped, processDispatchers.
  destruct (p !! dispatchersKey) as [[| | | | |d|]|]; try done.
  run_simpl.
  destruct (d !! catalogDispatcherKey) as [[| | | | |c|]|]; try done.
  run_simpl.
  destruct (c !! catalogApplicationType) as [a|]; [|done].
  destruct (c !! catalogSourceType) as [t|]; [|done].
  destruct (c !! catalogSourceRef) as [ref|]; [|done].
  destruct (c !! catalogSourceName) as [n|]; [|done].
  destruct a; try done. destruct t; try done.
  destruct ref; try done. destruct n; try done.
  intros _. run_simpl. by case_match_goal.
Qed.

(** [dispatchers] is there and is not a map: the enrollment panics at once. *)
Lemma enroll_dispatchers_panic p v :
  p !! dispatchersKey = Some v → is_map v = false →
  ∃ reason, enroll p = MkRun [] (Panicked reason).
Proof.
  intros Hd Hv. unfold processDispatchers. rewrite Hd.
  destruct v; try done; run_simpl; eauto.
Qed.

(** The catalog dispatcher is there and is not a map: the enrollment
    panics at once. *)
Lemma enroll_catalog_panic p d v :
  p !! dispatchersKey = Some (MapStringAny d) →
  d !! catalogDispatcherKey = Some v → is_map v = false →
  ∃ reason, enroll p = MkRun [] (Panicked reason).
Proof.
  intros Hd Hc Hv. unfold processDispatchers. rewrite Hd. run_simpl.
  rewrite Hc. destruct v; try done; run_simpl; eauto.
Qed.

(** The catalog has its four fields and one of them is not a string: the
    enrollment panics before it calls the sources recorder. *)
Lemma enroll_field_panic p d c :
  p !! dispatchersKey = Some (MapStringAny d) →
  d !! catalogDispatcherKey = Some (MapStringAny c) →
  catalog_shaped c = false →
  ∃ reason, enroll p = MkRun [] (Panicked reason).
Proof.
  intros Hd Hc. unfold processDispatchers, catalog_shaped. rewrite Hd.
  run_simpl. rewrite Hc. run_simpl.
  destruct (c !! catalogApplicationType) as [a|]; [|done].
  destruct (c !! catalogSourceType) as [t|]; [|done].
  destruct (c !! catalogSourceRef) as [ref|]; [|done].
  destruct (c !! catalogSourceName) as [n|]; [|done].
  destruct ref; run_simpl; eauto.
  destruct n; run_simpl; eauto.
  destruct t; run_simpl; eauto.
  destruct a; run_simpl; eauto.
  done.
Qed.
End Shape.

(** [dispatchers] is there and is not a map: the gate panics when the payload
    has canonical facts, and is closed when it has none. *)
Lemma gate_unshaped p v :
  p !! dispatchersKey = Some v → is_map v = false →
  (∃ reason, outcome (shouldHostBeRegisteredWithInventory p) = Panicked reason)
  ∨ outcome (shouldHostBeRegisteredWithInventory p) = Returned false.
Proof.
  intros Hd Hv.
  unfold shouldHostBeRegisteredWithInventory, doesHostHavePlaybookWorker.
  destruct (doesHostHaveCanonicalFacts p); [|by right].
  rewrite Hd. destruct v; try done; run_simpl; eauto.
Qed.

Section Panics.
Context (rt : Runtime) (cfg : Config) (mqttClient client : MQTT.Client)
  (topicVerifier : TopicVerifier) (topicBuilder : TopicBuilder)
  (connectionRegistrar : ConnectionRegistrar)
  (accountResolver : AccountIdResolver)
  (connectedClientRecorder : ConnectedClientRecorder)
  (sourcesRecorder : SourcesRecorder).

#[local] Abbreviation handle topic payload :=
  (HandleControlMessage rt cfg mqttClient topicVerifier topicBuilder
     connectionRegistrar accountResolver connectedClientRecorder
     sourcesRecorder client topic payload).
#[local] Abbreviation handshake clientID msg :=
  (handleConnectionStatusMessage rt client clientID msg cfg topicBuilder
     connectionRegistrar accountResolver connectedClientRecorder
     sourcesRecorder).
#[local] Abbreviation online clientID msg :=
  (handleOnlineMessage rt client clientID msg cfg topicBuilder accountResolver
     connectionRegistrar connectedClientRecorder sourcesRecorder).

(** A connection status whose content is not a map panics at the first
    assertion. *)
Lemma status_content_panic clientID msg :
  is_map (Content msg) = false →
  ∃ reason,
    handshake clientID msg =
    MkRun [Log DebugLevel "handling connection status control message"]
          (Panicked reason).
Proof.
  intros Hc. unfold handleConnectionStatusMessage.
  destruct (Content msg); try done; run_simpl; eauto.
Qed.

(** An online handshake whose [dispatchers] is not a map panics once the
    client is registered. *)
Lemma online_dispatchers_panic clientID msg p v identity account :
  Content msg = MapStringAny p →
  MapClientIdToAccountId accountResolver clientID = Ok (identity, account) →
  Register connectionRegistrar (rhcClient_of clientID account p) = None →
  p !! dispatchersKey = Some v → is_map v = false →
  ∃ reason,
    online clientID msg =
    MkRun [ Log DebugLevel "handling online connection-status message";
            Call_MapClientIdToAccountId clientID;
            Call_Register (rhcClient_of clientID account p) ]
          (Panicked reason).
Proof.
  intros Hc Hr Hreg Hd Hv.
  destruct (gate_unshaped p v Hd Hv) as [[reason Hg]|Hg].
  - exists reason.
    apply (online_gate_panic _ _ _ _ _ _ _ _ _ _ _ _ _ _ Hr Hc Hreg Hg).
  - destruct (enroll_dispatchers_panic sourcesRecorder identity account
                clientID p v Hd Hv) as [reason Hp].
    exists reason.
    rewrite (online_enroll _ _ _ _ _ _ _ _ _ _ _ _ _ false Hr Hc Hreg Hg)
      by done.
    by rewrite Hp.
Qed.

(** A connection status whose content has the asserted shape does not
    panic. *)
Lemma status_shaped_no_panic clientID msg reason :
  content_shaped (Content msg) = true →
  outcome (handshake clientID msg) ≠ Panicked reason.
Proof.
  unfold content_shaped. destruct (Content msg) as [| | | | |p|] eqn:Hc;
    try done.
  intros Hshape.
  assert (dispatchers_shaped p = true) as Hds.
  { revert Hshape. unfold handshake_shaped, dispatchers_shaped.
    by destruct (p !! dispatchersKey) as [[]|]. }
  destruct (state_online_dec p) as [Hs|Hs].
  - rewrite (status_online _ _ _ _ _ _ _ _ _ _ _ Hc Hs). cbn [outcome].
    destruct (online_path_complete rt cfg client topicBuilder
                connectionRegistrar accountResolver connectedClientRecorder
                sourcesRecorder clientID msg p Hc)
      as [e Hr|i a e Hr Hreg|i a reason' Hr Hreg Hg|i a e Hr Hreg Hg Hrec
         |i a gate Hr Hreg Hg Hrec];
      cbn [outcome]; try done.
    + by rewrite (gate_shaped _ Hds) in Hg.
    + by rewrite (enroll_shaped_returns _ _ _ _ _ Hshape).
  - unfold handleConnectionStatusMessage. rewrite Hc. run_simpl.
    destruct (p !! "state") as [v|]; [|done].
    rewrite eq_string_false by congruence.
    by destruct (eq_string v "offline").
Qed.

(** C10. The handlers of the connection status assert the shape of what they
    read and panic outside of it: [handleConnectionStatusMessage] when the
    content of the envelope is not a map, and with it the handler of the
    frame; [handleOnlineMessage], once it has registered the client, when
    [dispatchers] is there and is not a map; [processDispatchers] when
    [dispatchers] or its [catalog] is not a map, or when the catalog has the
    four fields and one is not a string. On a content of the asserted shape
    the connection status does not panic. *)
Theorem handlers_panic_outside_shape clientID msg :
  (is_map (Content msg) = false →
   (∃ reason, outcome (handshake clientID msg) = Panicked reason) ∧
   ∀ topic payload topicType,
     VerifyIncomingTopic topicVerifier topic = Ok (topicType, clientID) →
     String.length payload ≠ 0%nat →
     json_Unmarshal rt payload = Ok msg →
     MessageType msg = "connection-status" →
     ∃ reason, outcome (handle topic payload) = Panicked reason) ∧
  (∀ p v identity account,
     Content msg = MapStringAny p →
     MapClientIdToAccountId accountResolver clientID = Ok (identity, account) →
     Register connectionRegistrar (rhcClient_of clientID account p) = None →
     p !! "dispatchers" = Some v → is_map v = false →
     ∃ reason, outcome (online clientID msg) = Panicked reason) ∧
  (∀ p v identity account,
     p !! "dispatchers" = Some v → is_map v = false →
     ∃ reason,
       outcome (processDispatchers sourcesRecorder identity account clientID p)
       = Panicked reason) ∧
  (∀ p d v identity account,
     p !! "dispatchers" = Some (MapStringAny d) →
     d !! "catalog" = Some v → is_map v = false →
     ∃ reason,
       outcome (processDispatchers sourcesRecorder identity account clientID p)
       = Panicked reason) ∧
  (∀ p d c identity account,
     p !! "dispatchers" = Some (MapStringAny d) →
     d !! "catalog" = Some (MapStringAny c) →
     catalog_shaped c = false →
     ∃ reason,
       outcome (processDispatchers sourcesRecorder identity account clientID p)
       = Panicked reason) ∧
  (content_shaped (Content msg) = true →
   ∀ reason, outcome (handshake clientID msg) ≠ Panicked reason).
Proof.
  split; [|split; [|split; [|split; [|split]]]].
  - intros Hc. destruct (status_content_panic clientID msg Hc) as [reason Hp].
    split; [exists reason; by rewrite Hp|].
    intros topic payload topicType Hv Hlen Hj Ht. exists reason.
    rewrite (control_frame_status _ _ _ _ _ _ _ _ _ _ _ _ _ _ _
               Hv Hlen Hj Ht).
    by rewrite Hp.
  - intros p v identity account Hc Hr Hreg Hd Hv.
    destruct (online_dispatchers_panic clientID msg p v identity account
                Hc Hr Hreg Hd Hv) as [reason Hp].
    exists reason. by rewrite Hp.
  - intros p v identity account Hd Hv.
    destruct (enroll_dispatchers_panic sourcesRecorder identity account
                clientID p v Hd Hv) as [reason Hp].
    exists reason. by rewrite Hp.
  - intros p d v identity account Hd Hc Hv.
    destruct (enroll_catalog_panic sourcesRecorder identity account
                clientID p d v Hd Hc Hv) as [reason Hp].
    exists reason. by rewrite Hp.
  - intros p d c identity account Hd Hc Hs.
    destruct (enroll_field_panic sourcesRecorder identity account
                clientID p d c Hd Hc Hs) as [reason Hp].
    exists reason. by rewrite Hp.
  - intros Hs reason. by apply status_shaped_no_panic.
Qed.
End Panics.

(** ** The properties on the scenarios *)

(** S4: the offline connection status of [abc] unregisters [abc] and does
    nothing else. *)
Lemma offline_only_unregisters_S4 :
  let r := Scenario.status Scenario.offline Scenario.registrar
             Scenario.resolver Scenario.recorder Scenario.sources in
  Scenario.offline !! "state" = Some (String "offline") ∧
  outcome r = Returned None ∧
  collaborator_calls (events r) = [Call_Unregister "abc"] ∧
  calls_Publish (events r) = [] ∧
  spawned (events r) = [].
Proof.
  split; [reflexivity|].
  apply (offline_only_unregisters
           (Scenario.runtime (MapStringAny Scenario.offline)) Scenario.cfg
           Scenario.client Scenario.topicBuilder Scenario.registrar
           Scenario.resolver Scenario.recorder Scenario.sources "abc"
           (Scenario.envelope (MapStringAny Scenario.offline))
           Scenario.offline); reflexivity.
Defined.

(** The state [standby] is dropped with an error. *)
Lemma invalid_state_dropped_standby :
  let r := Scenario.status Scenario.standby Scenario.registrar
             Scenario.resolver Scenario.recorder Scenario.sources in
  Scenario.standby !! "state" = Some (String "standby") ∧
  outcome r = Returned (Some (errors_New "Invalid connection state")) ∧
  calls_Publish (events r) = [] ∧
  calls_Register (events r) = [] ∧
  calls_Unregister (events r) = [] ∧
  collaborator_calls (events r) = [] ∧
  spawned (events r) = [].
Proof.
  split; [reflexivity|].
  apply (invalid_state_dropped
           (Scenario.runtime (MapStringAny Scenario.standby)) Scenario.cfg
           Scenario.client Scenario.topicBuilder Scenario.registrar
           Scenario.resolver Scenario.recorder Scenario.sources "abc"
           (Scenario.envelope (MapStringAny Scenario.standby))
           Scenario.standby); [reflexivity|].
  intros v Hv. vm_compute in Hv. injection Hv as <-. split; discriminate.
Defined.

(** S3: the resolver fails, and the reconnect command is published on
    [redhat/insights/abc/control/out]. *)
Lemma resolver_error_reconnects_S3 :
  let r := Scenario.status Scenario.online_bare Scenario.registrar
             Scenario.resolver_failing Scenario.recorder Scenario.sources in
  MapClientIdToAccountId Scenario.resolver_failing "abc"
    = Err (errors_New "unknown client") ∧
  outcome r = Returned (Some (errors_New "unknown client")) ∧
  calls_Register (events r) = [] ∧
  collaborator_calls (events r) = [Call_MapClientIdToAccountId "abc"] ∧
  calls_Publish (events r) = [Scenario.reconnect_published].
Proof.
  split; [reflexivity|].
  apply (resolver_error_reconnects
           (Scenario.runtime (MapStringAny Scenario.online_bare)) Scenario.cfg
           Scenario.client Scenario.topicBuilder Scenario.registrar
           Scenario.resolver_failing Scenario.recorder Scenario.sources "abc"
           (Scenario.envelope (MapStringAny Scenario.online_bare))
           Scenario.online_bare (errors_New "unknown client")
           "6ba7b810-9dad-11d1-80b4-00c04fd430c8");
    reflexivity.
Defined.

(** S2 with a failing sources recorder: the handshake succeeds all the same. *)
Lemma sources_error_not_fatal_S2 :
  let p := Scenario.online_with (MapStringAny Scenario.catalog_SourceRef) in
  let r := Scenario.status p Scenario.registrar Scenario.resolver
             Scenario.recorder Scenario.sources_failing in
  calls_RegisterWithSources (events r) =
    [("identity-of-abc", "account-1", "abc", ("R", "N", "T", "A"))] ∧
  outcome r = Returned None ∧
  calls_Publish (events r) = [] ∧
  spawned (events r) = [] ∧
  calls_Unregister (events r) = [] ∧
  length (calls_Register (events r)) = 1%nat.
Proof.
  split; [vm_compute; reflexivity|].
  apply (sources_error_not_fatal
           (Scenario.runtime
              (MapStringAny
                 (Scenario.online_with (MapStringAny Scenario.catalog_SourceRef))))
           Scenario.cfg Scenario.client Scenario.topicBuilder
           Scenario.registrar Scenario.resolver Scenario.recorder
           Scenario.sources_failing "abc"
           (Scenario.envelope
              (MapStringAny
                 (Scenario.online_with (MapStringAny Scenario.catalog_SourceRef))))
           (Scenario.online_with (MapStringAny Scenario.catalog_SourceRef))
           "identity-of-abc" "account-1" "abc" "R" "N" "T" "A"
           (errors_New "sources unreachable"));
    [reflexivity|reflexivity|vm_compute; left; reflexivity|reflexivity].
Defined.

(** S2: with canonical facts and the playbook worker, the client is recorded
    once. *)
Lemma inventory_recorded_iff_gate_S2 :
  let p := Scenario.online_with (MapStringAny Scenario.catalog_SourceRef) in
  let r := Scenario.status p Scenario.registrar Scenario.resolver
             Scenario.recorder Scenario.sources in
  inventory_gate p = true ∧
  calls_RecordConnectedClient (events r) =
    [("identity-of-abc", Scenario.registered p)].
Proof.
  split; [reflexivity|].
  apply (inventory_recorded_iff_gate
           (Scenario.runtime
              (MapStringAny
                 (Scenario.online_with (MapStringAny Scenario.catalog_SourceRef))))
           Scenario.cfg Scenario.client Scenario.topicBuilder
           Scenario.registrar Scenario.resolver Scenario.recorder
           Scenario.sources "abc"
           (Scenario.envelope
              (MapStringAny
                 (Scenario.online_with (MapStringAny Scenario.catalog_SourceRef))))
           (Scenario.online_with (MapStringAny Scenario.catalog_SourceRef)));
    reflexivity.
Defined.

(** C4, as stated for every online payload, fails: in S2 the payload has
    [canonical_facts] and the playbook worker, and the recorder is not called
    when the resolver or the registrar answers an error; and a payload with
    [canonical_facts] whose [dispatchers] is a list has no playbook worker,
    and the handshake panics after [Register] instead of going on with the
    enrollment. *)
Lemma gate_open_not_recorded :
  let p := Scenario.online_with (MapStringAny Scenario.catalog_SourceRef) in
  let q := Scenario2.online_facts_dispatchers_list in
  let unresolved := Scenario.status p Scenario.registrar
                      Scenario.resolver_failing Scenario.recorder
                      Scenario.sources in
  let unregistered := Scenario.status p Scenario.registrar_failing
                        Scenario.resolver Scenario.recorder
                        Scenario.sources in
  let malformed := Scenario.status q Scenario.registrar Scenario.resolver
                     Scenario.recorder Scenario.sources in
  (p !! "state" = Some (String "online") ∧
   inventory_gate p = true ∧
   calls_RecordConnectedClient (events unresolved) = [] ∧
   calls_RecordConnectedClient (events unregistered) = []) ∧
  (q !! "state" = Some (String "online") ∧
   inventory_gate q = false ∧
   collaborator_calls (events malformed) =
     [ Call_MapClientIdToAccountId "abc";
       Call_Register (Scenario.registered q) ] ∧
   outcome malformed =
     Panicked
       "interface conversion: interface {} is not map[string]interface {}").
Proof. repeat split; vm_compute; reflexivity. Defined.

(** S2, with the reference under [SourceRef]: the sources recorder is called
    with the four fields. *)
Lemma sources_enrolled_S2_SourceRef :
  let p := Scenario.online_with (MapStringAny Scenario.catalog_SourceRef) in
  let r := Scenario.status p Scenario.registrar Scenario.resolver
             Scenario.recorder Scenario.sources in
  Scenario.catalog_SourceRef !! "SourceRef" = Some (String "R") ∧
  calls_RegisterWithSources (events r) =
    [("identity-of-abc", "account-1", "abc", ("R", "N", "T", "A"))].
Proof.
  split; [reflexivity|].
  apply (sources_enrolled_iff_catalog_complete
           (Scenario.runtime
              (MapStringAny
                 (Scenario.online_with (MapStringAny Scenario.catalog_SourceRef))))
           Scenario.cfg Scenario.client Scenario.topicBuilder
           Scenario.registrar Scenario.resolver Scenario.recorder
           Scenario.sources "abc"
           (Scenario.envelope
              (MapStringAny
                 (Scenario.online_with (MapStringAny Scenario.catalog_SourceRef))))
           (Scenario.online_with (MapStringAny Scenario.catalog_SourceRef))
           (<[ "rhc-worker-playbook" := MapStringAny ∅ ]>
              {[ "catalog" := MapStringAny Scenario.catalog_SourceRef ]})
           Scenario.catalog_SourceRef "identity-of-abc" "account-1");
    reflexivity.
Defined.

(** S1 with a failing registrar: the client is registered once and the
    reconnect command is published. *)
Lemma register_and_reconnect_registrar_failing :
  let t := events (Scenario.frame (MapStringAny Scenario.online_bare)
                     Scenario.registrar_failing Scenario.resolver
                     Scenario.recorder Scenario.sources) in
  VerifyIncomingTopic Scenario.topicVerifier Scenario.control_topic
    = Ok (ControlTopicType, "abc") ∧
  calls_Register t = [Scenario.registered Scenario.online_bare] ∧
  calls_Publish t = [Scenario.reconnect_published].
Proof.
  split; [reflexivity|].
  pose proof (register_and_reconnect_by_step
                (Scenario.runtime (MapStringAny Scenario.online_bare))
                Scenario.cfg Scenario.client Scenario.client
                Scenario.topicVerifier Scenario.topicBuilder
                Scenario.registrar_failing Scenario.resolver
                Scenario.recorder Scenario.sources
                Scenario.control_topic Scenario.control_payload ControlTopicType
                "abc" (Scenario.envelope (MapStringAny Scenario.online_bare))
                Scenario.online_bare "6ba7b810-9dad-11d1-80b4-00c04fd430c8"
                (String.list_byte_of_string
                   "control 6ba7b810-9dad-11d1-80b4-00c04fd430c8")
                eq_refl ltac:(discriminate) eq_refl eq_refl eq_refl eq_refl
                eq_refl)
    as (_ & _ & Hregistrar & _).
  apply (Hregistrar "identity-of-abc" "account-1"
           (errors_New "registry unreachable")); reflexivity.
Defined.

(** C1, as stated, fails: with a failing registrar the handled frame of S1
    calls [Register] once and publishes the reconnect command once, and the
    offline frame of S4 calls and publishes neither. *)
Lemma register_xor_reconnect_fails :
  let both := events (Scenario.frame (MapStringAny Scenario.online_bare)
                        Scenario.registrar_failing Scenario.resolver
                        Scenario.recorder Scenario.sources) in
  let neither := events (Scenario.frame (MapStringAny Scenario.offline)
                           Scenario.registrar Scenario.resolver
                           Scenario.recorder Scenario.sources) in
  (VerifyIncomingTopic Scenario.topicVerifier Scenario.control_topic
     = Ok (ControlTopicType, "abc") ∧
   String.length Scenario.control_payload ≠ 0%nat ∧
   MessageType (Scenario.envelope (MapStringAny Scenario.online_bare))
     = "connection-status") ∧
  (length (calls_Register both) = 1%nat ∧
   length (calls_Publish both) = 1%nat ∧
   ¬ register_xor_reconnect both) ∧
  (calls_Register neither = [] ∧
   calls_Publish neither = [] ∧
   ¬ register_xor_reconnect neither).
Proof.
  repeat split; try reflexivity; try discriminate.
  - intros [[_ H]|[H _]]; vm_compute in H; discriminate.
  - intros [[H _]|[_ H]]; vm_compute in H; discriminate.
Defined.

(** C2, as stated, fails: the catalog of S2, with the reference under
    [SrcRef], has the four keys of the claim and the sources recorder is not
    called. *)
Lemma catalog_SrcRef_not_enrolled :
  let p := Scenario.online_with (MapStringAny Scenario.catalog_SrcRef) in
  let r := Scenario.status p Scenario.registrar Scenario.resolver
             Scenario.recorder Scenario.sources in
  (Scenario.catalog_SrcRef !! "ApplicationType" = Some (String "A") ∧
   Scenario.catalog_SrcRef !! "SrcName" = Some (String "N") ∧
   Scenario.catalog_SrcRef !! "SrcRef" = Some (String "R") ∧
   Scenario.catalog_SrcRef !! "SrcType" = Some (String "T")) ∧
  outcome r = Returned None ∧
  length (calls_Register (events r)) = 1%nat ∧
  calls_RegisterWithSources (events r) = [].
Proof. repeat split; vm_compute; reflexivity. Defined.

(** S6: [ControlMessageHandler] writes the frame [0xDEADBEEF] to Kafka, under
    its topic and its message id. *)
Lemma kafka_records_of_frame_S6 :
  calls_WriteMessages
    (all_events (events (ControlMessageHandler Scenario.writer
                           Scenario.topicVerifier Scenario.client
                           Scenario.data_frame))) =
  [ {| kafka.Headers :=
         [ {| kafka.Key := "topic";
              kafka.HeaderValue :=
                String.list_byte_of_string "redhat/insights/abc/data/in" |};
           {| kafka.Key := "mqtt_message_id";
              kafka.HeaderValue := String.list_byte_of_string "7" |} ];
       kafka.Value := [Byte.xde; Byte.xad; Byte.xbe; Byte.xef] |} ].
Proof.
  apply (kafka_records_of_frame Scenario.writer Scenario.topicVerifier
           Scenario.client Scenario.data_frame)
    with (topicType := DataTopicType) (clientID := "abc");
    [reflexivity|discriminate].
Defined.

(** C3, as stated, fails: the data frame of S6 is dispatched to
    [DataMessageHandler], which writes no record. *)
Lemma data_frame_not_forwarded :
  let dispatched :=
    DefaultMessageHandler Scenario.topicVerifier
      (ControlMessageHandler Scenario.writer Scenario.topicVerifier)
      DataMessageHandler Scenario.client Scenario.data_frame in
  VerifyIncomingTopic Scenario.topicVerifier
    (MQTT.Topic Scenario.data_frame) = Ok (DataTopicType, "abc") ∧
  length (MQTT.Payload Scenario.data_frame) = 4%nat ∧
  calls_WriteMessages
    (all_events (events (DataMessageHandler Scenario.client
                           Scenario.data_frame))) = [] ∧
  calls_WriteMessages (all_events (events dispatched)) = [].
Proof. repeat split; vm_compute; reflexivity. Defined.

(** A write that fails for another reason than a cancellation is fatal. *)
Lemma kafka_write_failure_fatal :
  let r := run_goroutine
             (go_WriteMessages Scenario.writer_failing Scenario.data_frame "7") in
  errors_Is (errors_New "broker unreachable") context_Canceled = false ∧
  logged ErrorLevel (events r) = ["Error writing MQTT message to kafka"] ∧
  outcome r = Exited 1 ∧
  logged FatalLevel (events r) = ["Failed writing to kafka"].
Proof.
  pose proof (kafka_write_failure Scenario.writer_failing Scenario.data_frame
                "7" (errors_New "broker unreachable") eq_refl)
    as (Herror & Hexit & Hfatal & _).
  split; [reflexivity|]. split; [exact Herror|].
  split; [apply Hexit; reflexivity|apply Hfatal; reflexivity].
Defined.

(** C6, as stated, fails: a canceled write is logged at the error level
    before the goroutine returns. *)
Lemma canceled_write_logged_as_error :
  let r := run_goroutine
             (go_WriteMessages Scenario.writer_canceled Scenario.data_frame "7") in
  kafka.WriteMessages Scenario.writer_canceled
    [kafka_record Scenario.data_frame "7"]
    = Some (Wrapped "write failed" context_Canceled) ∧
  errors_Is (Wrapped "write failed" context_Canceled) context_Canceled = true ∧
  outcome r = Returned tt ∧
  logged ErrorLevel (events r) = ["Error writing MQTT message to kafka"].
Proof. repeat split; vm_compute; reflexivity. Defined.

(** A connection status whose content is a JSON string, and one whose
    [dispatchers] is a list, panic. *)
Lemma handlers_panic_on_string_and_list :
  (∃ reason,
     outcome (Scenario.frame (String "online") Scenario.registrar
                Scenario.resolver Scenario.recorder Scenario.sources)
     = Panicked reason) ∧
  (∃ reason,
     outcome (handleOnlineMessage
                (Scenario.runtime (MapStringAny Scenario.online_dispatchers_list))
                Scenario.client "abc"
                (Scenario.envelope
                   (MapStringAny Scenario.online_dispatchers_list))
                Scenario.cfg Scenario.topicBuilder Scenario.resolver
                Scenario.registrar Scenario.recorder Scenario.sources)
     = Panicked reason).
Proof.
  split.
  - apply (handlers_panic_outside_shape
             (Scenario.runtime (String "online")) Scenario.cfg Scenario.client
             Scenario.client Scenario.topicVerifier Scenario.topicBuilder
             Scenario.registrar Scenario.resolver Scenario.recorder
             Scenario.sources "abc" (Scenario.envelope (String "online")))
      with (topicType := ControlTopicType);
      [reflexivity|reflexivity|discriminate|reflexivity|reflexivity].
  - apply (handlers_panic_outside_shape
             (Scenario.runtime (MapStringAny Scenario.online_dispatchers_list))
             Scenario.cfg Scenario.client
             Scenario.client Scenario.topicVerifier Scenario.topicBuilder
             Scenario.registrar Scenario.resolver Scenario.recorder
             Scenario.sources "abc"
             (Scenario.envelope (MapStringAny Scenario.online_dispatchers_list)))
      with (p := Scenario.online_dispatchers_list) (v := Slice [])
           (identity := "identity-of-abc") (account := "account-1");
      reflexivity.
Defined.

(** ** The other scenarios *)

(** The topics of the grammar, and some that are not. *)
Example verify_control_topic :
  VerifyIncomingTopic Scenario.topicVerifier "redhat/insights/abc/control/in"
  = Ok (ControlTopicType, "abc").
Proof. reflexivity. Qed.

Example verify_data_topic :
  VerifyIncomingTopic Scenario.topicVerifier "redhat/insights/abc/data/in"
  = Ok (DataTopicType, "abc").
Proof. reflexivity. Qed.

Example verify_malformed_topics :
  Forall (λ topic, VerifyIncomingTopic Scenario.topicVerifier topic
                   = Err (errors_New "ErrMalformedTopic"))
    [ "redhat/insights//control/in"; "redhat/insights/a/b/control/in";
      "other/insights/abc/control/in"; "redhat/insights/abc/control/out";
      "redhat/insights/abc/events/in"; "redhat/insights/abc" ].
Proof. repeat constructor. Qed.

(** S1: online without facts or dispatchers. The resolver and the registrar
    are called, the recorders are not, and nothing is published. *)
Example S1_online_bare :
  let r := Scenario.frame (MapStringAny Scenario.online_bare)
             Scenario.registrar Scenario.resolver Scenario.recorder
             Scenario.sources in
  outcome r = Returned tt ∧
  collaborator_calls (events r) =
    [ Call_MapClientIdToAccountId "abc";
      Call_Register {| ClientID := "abc"; Account := "account-1";
                       Dispatchers := Nil; CanonicalFacts := Nil |} ] ∧
  calls_Publish (events r) = [].
Proof. repeat split; vm_compute; reflexivity. Qed.

(** S2, with the reference under [SourceRef]: each collaborator is called
    once, the recorder with the canonical facts, and nothing is published. *)
Example S2_online_full :
  let p := Scenario.online_with (MapStringAny Scenario.catalog_SourceRef) in
  let r := Scenario.frame (MapStringAny p) Scenario.registrar
             Scenario.resolver Scenario.recorder Scenario.sources in
  outcome r = Returned tt ∧
  collaborator_calls (events r) =
    [ Call_MapClientIdToAccountId "abc";
      Call_Register (Scenario.registered p);
      Call_RecordConnectedClient "identity-of-abc" (Scenario.registered p);
      Call_RegisterWithSources "identity-of-abc" "account-1" "abc"
        "R" "N" "T" "A" ] ∧
  CanonicalFacts (Scenario.registered p)
    = MapStringAny {[ "fqdn" := String "h.x" ]} ∧
  calls_Publish (events r) = [].
Proof. repeat split; vm_compute; reflexivity. Qed.

(** A catalog without [SrcType] is skipped, and the handshake succeeds. *)
Example catalog_incomplete_skipped :
  let p := Scenario.online_catalog_only
             (MapStringAny Scenario.catalog_incomplete) in
  let r := Scenario.status p Scenario.registrar Scenario.resolver
             Scenario.recorder Scenario.sources in
  outcome r = Returned None ∧
  calls_RegisterWithSources (events r) = [] ∧
  calls_RecordConnectedClient (events r) = [] ∧
  logged DebugLevel (events r) =
    [ "handling connection status control message";
      "handling online connection-status message";
      "Found a catalog dispatcher, but missing some of the required fields" ].
Proof. repeat split; vm_compute; reflexivity. Qed.

(** S5: an empty payload on a control topic. The counter is incremented and
    nothing else happens. *)
Example S5_empty_control_payload :
  HandleControlMessage (Scenario.runtime Nil) Scenario.cfg Scenario.client
    Scenario.topicVerifier Scenario.topicBuilder Scenario.registrar
    Scenario.resolver Scenario.recorder Scenario.sources Scenario.client
    Scenario.control_topic ""
  = MkRun [ Log DebugLevel "Received control message on topic: %s\nMessage: %s\n";
            CounterInc "controlMessageReceivedCounter";
            Log TraceLevel "client sent an empty payload" ]
          (Returned tt).
Proof. reflexivity. Qed.

(** An empty frame is not written to Kafka. *)
Example empty_frame_not_written :
  all_events (events (ControlMessageHandler Scenario.writer
                        Scenario.topicVerifier Scenario.client
                        Scenario.empty_data_frame))
  = [Log TraceLevel "client sent an empty payload"].
Proof. reflexivity. Qed.

(** A successful write: one record, and the goroutine returns. *)
Example write_succeeds :
  run_goroutine (go_WriteMessages Scenario.writer Scenario.data_frame "7")
  = MkRun [ Call_WriteMessages [kafka_record Scenario.data_frame "7"];
            Log DebugLevel "MQTT message written to kafka" ]
          (Returned tt).
Proof. reflexivity. Qed.

(** * Further properties of the handlers *)

(** ** What a handshake can do *)

Lemma reconnect_is_handshake_event e : reconnect_event e → handshake_event e.
Proof. destruct 1; by constructor. Qed.

Lemma enroll_is_handshake_event e : enroll_event e → handshake_event e.
Proof. destruct 1; by constructor. Qed.

Lemma counter_incs_app counter t1 t2 :
  counter_incs counter (t1 ++ t2)
  = (counter_incs counter t1 + counter_incs counter t2)%nat.
Proof. unfold counter_incs. by rewrite List.filter_app, length_app. Qed.

(** The handling of a connection status touches neither a counter nor
    Kafka. *)
Lemma handshake_events_obs t :
  Forall handshake_event t →
  (∀ counter, counter_incs counter t = 0%nat) ∧ calls_WriteMessages t = [].
Proof.
  induction 1 as [|e t He _ [IHc IHw]]; [done|].
  split.
  - intros counter. specialize (IHc counter).
    destruct He as [| | | e He]; try done. by destruct e.
  - destruct He as [| | | e He]; try done. by destruct e.
Qed.

Section HandshakeFootprint.
Context (rt : Runtime) (cfg : Config) (client : MQTT.Client)
  (topicBuilder : TopicBuilder) (connectionRegistrar : ConnectionRegistrar)
  (accountResolver : AccountIdResolver)
  (connectedClientRecorder : ConnectedClientRecorder)
  (sourcesRecorder : SourcesRecorder).

#[local] Abbreviation handshake clientID msg :=
  (handleConnectionStatusMessage rt client clientID msg cfg topicBuilder
     connectionRegistrar accountResolver connectedClientRecorder
     sourcesRecorder).
#[local] Abbreviation online clientID msg :=
  (handleOnlineMessage rt client clientID msg cfg topicBuilder accountResolver
     connectionRegistrar connectedClientRecorder sourcesRecorder).

Lemma online_footprint clientID msg p :
  Content msg = MapStringAny p →
  Forall handshake_event (events (online clientID msg)).
Proof.
  intros Hc.
  pose proof (Forall_impl _ _ _
                (sendReconnect_footprint rt client topicBuilder
                   (MqttControlPublishQoS cfg) clientID
                   (InvalidHandshakeReconnectDelay cfg))
                reconnect_is_handshake_event) as Hreconnect.
  destruct (online_path_complete rt cfg client topicBuilder
              connectionRegistrar accountResolver connectedClientRecorder
              sourcesRecorder clientID msg p Hc)
    as [e Hr|i a e Hr Hreg|i a reason Hr Hreg Hg|i a e Hr Hreg Hg Hrec
       |i a gate Hr Hreg Hg Hrec];
    cbn [events].
  - apply Forall_app. split; [|done]. repeat constructor.
  - apply Forall_app. split; [|done]. repeat constructor.
  - repeat constructor.
  - apply Forall_app. split; [|done]. repeat constructor.
  - apply Forall_app. split; [repeat constructor|].
    apply Forall_app. split; [destruct gate; repeat constructor|].
    apply (Forall_impl _ _ _ (processDispatchers_footprint _ _ _ _ _)
             enroll_is_handshake_event).
Qed.

Lemma status_footprint clientID msg :
  Forall handshake_event (events (handshake clientID msg)).
Proof.
  unfold handleConnectionStatusMessage.
  destruct (Content msg) as [| | | | |p|] eqn:Hc; run_simpl;
    try (repeat constructor).
  destruct (state_online_dec p) as [Hs|Hs].
  - rewrite Hs. simpl. apply (online_footprint clientID msg p Hc).
  - destruct (p !! "state") as [v|]; [|done].
    rewrite eq_string_false by congruence.
    destruct (eq_string v "offline"); repeat constructor.
Qed.
End HandshakeFootprint.

(** ** Frames *)

Section Frames.
Context (rt : Runtime) (cfg : Config) (mqttClient client : MQTT.Client)
  (topicVerifier : TopicVerifier) (topicBuilder : TopicBuilder)
  (connectionRegistrar : ConnectionRegistrar)
  (accountResolver : AccountIdResolver)
  (connectedClientRecorder : ConnectedClientRecorder)
  (sourcesRecorder : SourcesRecorder).

#[local] Abbreviation handle topic payload :=
  (HandleControlMessage rt cfg mqttClient topicVerifier topicBuilder
     connectionRegistrar accountResolver connectedClientRecorder
     sourcesRecorder client topic payload).
#[local] Abbreviation handshake clientID msg :=
  (handleConnectionStatusMessage rt client clientID msg cfg topicBuilder
     connectionRegistrar accountResolver connectedClientRecorder
     sourcesRecorder).

(** X1. Every control frame increments the counter of received control
    messages once, and no other counter: a frame that is dropped, one that
    fails its handshake and one whose handshake panics are counted like the
    others. Every data frame increments the counter of received data messages
    once. *)
Theorem frames_counted_once topic payload (message : MQTT.Message) :
  (∀ counter,
     counter_incs counter (events (handle topic payload))
     = if String.eqb "controlMessageReceivedCounter" counter
       then 1%nat else 0%nat) ∧
  (∀ counter,
     counter_incs counter (events (DataMessageHandler client message))
     = if String.eqb "dataMessageReceivedCounter" counter
       then 1%nat else 0%nat).
Proof.
  split; intros counter.
  - unfold HandleControlMessage. run_simpl.
    assert (∀ t, (∀ c, counter_incs c t = 0%nat) →
                 counter_incs counter
                   (Log DebugLevel
                      "Received control message on topic: %s\nMessage: %s\n"
                    :: CounterInc "controlMessageReceivedCounter" :: t)
                 = if String.eqb "controlMessageReceivedCounter" counter
                   then 1%nat else 0%nat) as Hcount.
    { intros t Ht. specialize (Ht counter). unfold counter_incs in *.
      cbn [List.filter].
      destruct (String.eqb "controlMessageReceivedCounter" counter);
        cbn [length]; by rewrite Ht. }
    apply Hcount. intros c.
    destruct (VerifyIncomingTopic topicVerifier topic) as [[? clientID]|];
      [|done].
    case_bool_decide; [done|].
    destruct (json_Unmarshal rt payload) as [msg|]; [|done].
    run_simpl.
    destruct (String.eqb (MessageType msg) "connection-status").
    + change (counter_incs c (events (handshake clientID msg ≫= λ _, mret tt))
              = 0%nat).
      rewrite events_bind, counter_incs_app.
      destruct (handshake_events_obs _
                  (status_footprint rt cfg client topicBuilder
                     connectionRegistrar accountResolver
                     connectedClientRecorder sourcesRecorder clientID msg))
        as [Hc _].
      rewrite Hc. by destruct (outcome (handshake clientID msg)).
    + by destruct (String.eqb (MessageType msg) "event").
  - unfold DataMessageHandler, counter_incs. run_simpl.
    case_bool_decide; cbn [events app List.filter];
      by destruct (String.eqb "dataMessageReceivedCounter" counter).
Qed.

(** X2. A control frame whose topic does not verify, whose payload is empty,
    whose payload does not decode, or whose message type is not
    [connection-status] (an event, or an unknown type) is dropped: the
    handler returns, calls no collaborator, publishes nothing and starts no
    goroutine. *)
Theorem unhandled_frame_has_no_effect topic payload :
  (∃ err, VerifyIncomingTopic topicVerifier topic = Err err) ∨
  String.length payload = 0%nat ∨
  (∃ err, json_Unmarshal rt payload = Err err) ∨
  (∃ msg, json_Unmarshal rt payload = Ok msg ∧
          MessageType msg ≠ "connection-status") →
  let r := handle topic payload in
  outcome r = Returned tt ∧
  collaborator_calls (events r) = [] ∧
  calls_Publish (events r) = [] ∧
  spawned (events r) = [].
Proof.
  intros Hdrop r. subst r. unfold HandleControlMessage. run_simpl.
  destruct (VerifyIncomingTopic topicVerifier topic) as [[? clientID]|];
    [|done].
  case_bool_decide; [done|].
  destruct (json_Unmarshal rt payload) as [msg|]; [|done].
  run_simpl.
  destruct (String.eqb (MessageType msg) "connection-status") eqn:Htype.
  - apply String.eqb_eq in Htype.
    destruct Hdrop as [[? ?]|[?|[[? ?]|(msg' & Hmsg & Hneq)]]]; try done.
    by injection Hmsg as <-.
  - by destruct (String.eqb (MessageType msg) "event").
Qed.
End Frames.

(** X3. Through the default handler, with the Kafka forwarder as the handler
    of control topics and [DataMessageHandler] as the handler of data topics:
    the handler returns; a frame is written to Kafka, once, exactly if its
    topic is a control topic and its payload is not empty; the counter of
    data messages is incremented exactly for the topics of the data kind. *)
Theorem default_handler_dispatch (kafkaWriter : kafka.Writer)
    (topicVerifier : TopicVerifier) (client : MQTT.Client)
    (message : MQTT.Message) :
  let r := DefaultMessageHandler topicVerifier
             (ControlMessageHandler kafkaWriter topicVerifier)
             DataMessageHandler client message in
  outcome r = Returned tt ∧
  calls_WriteMessages (all_events (events r)) =
    match VerifyIncomingTopic topicVerifier (MQTT.Topic message) with
    | Ok (ControlTopicType, _) =>
        if bool_decide (MQTT.Payload message = []) then []
        else [kafka_record message (pretty (MQTT.MessageID message))]
    | _ => []
    end ∧
  counter_incs "dataMessageReceivedCounter" (events r) =
    match VerifyIncomingTopic topicVerifier (MQTT.Topic message) with
    | Ok (DataTopicType, _) => 1%nat
    | _ => 0%nat
    end.
Proof.
  intros r. subst r.
  unfold DefaultMessageHandler, ControlMessageHandler, DataMessageHandler.
  run_simpl.
  destruct (VerifyIncomingTopic topicVerifier (MQTT.Topic message))
    as [[[] clientID]|]; simpl; try done.
  - destruct (MQTT.Payload message) as [|b payload] eqn:Hp; simpl; [done|].
    unfold all_events, calls_WriteMessages, kafka_record. simpl. rewrite Hp.
    by destruct (kafka.WriteMessages kafkaWriter _) as [e|];
      [destruct (errors_Is e context_Canceled)|].
  - by destruct (MQTT.Payload message).
Qed.

(** X4. The forwarder itself returns for every frame and starts at most one
    goroutine; a frame whose topic does not verify is logged at the error
    level and not written; and the goroutine of a frame calls the writer
    once, with the one record of the frame, whatever the writer answers: a
    failed write is not tried again. *)
Theorem forwarder_writes_once (kafkaWriter : kafka.Writer)
    (topicVerifier : TopicVerifier) (client : MQTT.Client)
    (message : MQTT.Message) (mqttMessageID : string) :
  let r := ControlMessageHandler kafkaWriter topicVerifier client message in
  outcome r = Returned tt ∧
  (length (spawned (events r)) ≤ 1)%nat ∧
  ((∃ err, VerifyIncomingTopic topicVerifier (MQTT.Topic message) = Err err) →
   all_events (events r) = [Log ErrorLevel "Failed to verify topic"]) ∧
  calls_WriteMessages
    (events (run_goroutine
               (go_WriteMessages kafkaWriter message mqttMessageID)))
  = [kafka_record message mqttMessageID].
Proof.
  intros r. subst r. unfold ControlMessageHandler.
  repeat split.
  - destruct (VerifyIncomingTopic _ _) as [[? ?]|]; [|done].
    by case_bool_decide.
  - destruct (VerifyIncomingTopic _ _) as [[? ?]|]; [|simpl; lia].
    case_bool_decide; simpl; lia.
  - intros [err ->]. done.
  - unfold run_goroutine, calls_WriteMessages, kafka_record. run_simpl.
    by destruct (kafka.WriteMessages kafkaWriter _) as [e|];
      [destruct (errors_Is e context_Canceled)|].
Qed.

(** ** The senders *)

(** X5. [sendMessage] does not report a failure of the broker: when the
    message encodes it publishes once, not retained, and returns no error
    whatever the token of the publish says; the error of the token is only
    logged, at the error level, by the goroutine that waits for it. When the
    message does not encode nothing is published and the error is returned. *)
Theorem sendMessage_hides_broker_failure (rt : Runtime)
    (mqttClient : MQTT.Client) (clientID : domain.ClientID) (messageID : UUID)
    (topic : string) (qos : Z) (message : ControlMessage) :
  let r := sendMessage rt mqttClient clientID messageID topic qos message in
  (∀ err, json_Marshal rt message = Err err →
          r = MkRun [] (Returned (Some err))) ∧
  (∀ payload,
     json_Marshal rt message = Ok payload →
     let token := MQTT.Publish mqttClient topic qos false payload in
     outcome r = Returned None ∧
     calls_Publish (events r) = [(topic, qos, false, payload)] ∧
     spawned (events r) = [go_Wait token] ∧
     logged ErrorLevel (all_events (events r)) =
       match MQTT.Error token with
       | Some _ => ["Error sending a message to MQTT broker"]
       | None => []
       end).
Proof.
  intros r. subst r. unfold sendMessage. split.
  - by intros err ->.
  - intros payload ->. cbv zeta. run_simpl.
    repeat split. unfold all_events. simpl.
    by destruct (MQTT.Error _).
Qed.

(** X6. [sendControlMessage] returns the id of the envelope it publishes:
    with a minted id and an encoded envelope it publishes once, on the given
    topic at the given QoS and not retained, the encoding of the [control]
    envelope of version 1 that carries the id and the content, and returns
    the id without error; when the id cannot be minted it publishes nothing
    and returns no id; when the envelope does not encode it publishes
    nothing and returns the id with the error. *)
Theorem sendControlMessage_returns_published_id (rt : Runtime)
    (mqttClient : MQTT.Client) (topic : string) (qos : Z)
    (clientID : domain.ClientID) (content : CommandMessageContent) :
  let r := sendControlMessage rt mqttClient topic qos clientID content in
  let envelope messageID :=
    {| MessageType := "control"; MessageID := messageID; Version := 1;
       Sent := time_Now rt; Content := CommandMessageContentPtr content |} in
  (∀ err, uuid_NewRandom rt = Err err →
          r = MkRun [] (Returned (None, Some err))) ∧
  (∀ messageID payload,
     uuid_NewRandom rt = Ok messageID →
     json_Marshal rt (envelope messageID) = Ok payload →
     outcome r = Returned (Some messageID, None) ∧
     calls_Publish (events r) = [(topic, qos, false, payload)]) ∧
  (∀ messageID err,
     uuid_NewRandom rt = Ok messageID →
     json_Marshal rt (envelope messageID) = Err err →
     outcome r = Returned (Some messageID, Some err) ∧
     calls_Publish (events r) = []).
Proof.
  intros r envelope. subst r envelope.
  unfold sendControlMessage, buildControlMessage, sendMessage.
  split; [by intros err ->|].
  split; intros messageID x -> Hm; run_simpl; by rewrite Hm.
Qed.

(** ** More on the handshake *)

Section HandshakeInvariants.
Context (rt : Runtime) (cfg : Config) (client : MQTT.Client)
  (topicBuilder : TopicBuilder) (connectionRegistrar : ConnectionRegistrar)
  (accountResolver : AccountIdResolver)
  (connectedClientRecorder : ConnectedClientRecorder)
  (sourcesRecorder : SourcesRecorder).

#[local] Abbreviation handshake clientID msg :=
  (handleConnectionStatusMessage rt client clientID msg cfg topicBuilder
     connectionRegistrar accountResolver connectedClientRecorder
     sourcesRecorder).
#[local] Abbreviation online clientID msg :=
  (handleOnlineMessage rt client clientID msg cfg topicBuilder accountResolver
     connectionRegistrar connectedClientRecorder sourcesRecorder).
#[local] Abbreviation reconnect clientID :=
  (sendReconnectMessageToClient rt client topicBuilder
     (MqttControlPublishQoS cfg) clientID (InvalidHandshakeReconnectDelay cfg)).

(** What a reconnect publishes, if anything. *)
Lemma reconnect_publishes clientID :
  calls_Publish (events (reconnect clientID)) = [] ∨
  ∃ messageID payload,
    uuid_NewRandom rt = Ok messageID ∧
    json_Marshal rt
      (reconnect_envelope messageID (time_Now rt)
         (InvalidHandshakeReconnectDelay cfg)) = Ok payload ∧
    calls_Publish (events (reconnect clientID)) =
      [(BuildOutgoingControlTopic topicBuilder clientID,
        MqttControlPublishQoS cfg, false, payload)].
Proof.
  destruct (uuid_NewRandom rt) as [messageID|err] eqn:Hid.
  - destruct (json_Marshal rt
                (reconnect_envelope messageID (time_Now rt)
                   (InvalidHandshakeReconnectDelay cfg)))
      as [payload|err] eqn:Hm.
    + right. exists messageID, payload. repeat split; [done|].
      by rewrite (sendReconnect_built rt client topicBuilder _ clientID _
                    _ _ Hid Hm).
    + left. unfold sendReconnectMessageToClient, buildReconnectMessage,
        buildControlMessage, sendMessage.
      rewrite Hid. unfold reconnect_envelope in Hm. run_simpl. by rewrite Hm.
  - left. unfold sendReconnectMessageToClient, buildReconnectMessage,
      buildControlMessage.
    by rewrite Hid.
Qed.

(** The ways of a connection status: a panic on the content, a state that is
    not online, or a way through [handleOnlineMessage]. *)
Lemma status_cases clientID msg :
  (∃ reason,
     handshake clientID msg =
     MkRun [Log DebugLevel "handling connection status control message"]
           (Panicked reason)) ∨
  (∃ p, Content msg = MapStringAny p ∧
        p !! "state" ≠ Some (String "online") ∧
        calls_Publish (events (handshake clientID msg)) = [] ∧
        calls_RecordConnectedClient (events (handshake clientID msg)) = [] ∧
        calls_RegisterWithSources (events (handshake clientID msg)) = []) ∨
  (∃ p, Content msg = MapStringAny p ∧
        handshake clientID msg =
        MkRun (Log DebugLevel "handling connection status control message"
               :: events (online clientID msg))
              (outcome (online clientID msg))).
Proof.
  destruct (Content msg) as [| | | | |p|] eqn:Hc;
    try (left; apply status_content_panic; by rewrite Hc).
  right. destruct (state_online_dec p) as [Hs|Hs].
  - right. exists p. split; [done|].
    apply (status_online _ _ _ _ _ _ _ _ _ _ p Hc Hs).
  - left. exists p. repeat split; try done;
      unfold handleConnectionStatusMessage; rewrite Hc; run_simpl;
      (destruct (p !! "state") as [v|]; [|done]);
      rewrite eq_string_false by congruence;
      by destruct (eq_string v "offline").
Qed.

(** X7. Everything a connection status publishes is a reconnect command for
    its client: at most one message, on the outgoing control topic of the
    client, at the configured QoS, not retained, the encoding of the
    reconnect envelope with the configured delay. And it publishes only when
    it returns an error: a handshake that returns no error has published
    nothing. *)
Theorem handshake_publishes_only_reconnects clientID msg :
  let r := handshake clientID msg in
  (length (calls_Publish (events r)) ≤ 1)%nat ∧
  (∀ topic qos retained payload,
     In (topic, qos, retained, payload) (calls_Publish (events r)) →
     topic = BuildOutgoingControlTopic topicBuilder clientID ∧
     qos = MqttControlPublishQoS cfg ∧ retained = false ∧
     ∃ messageID,
       uuid_NewRandom rt = Ok messageID ∧
       json_Marshal rt
         (reconnect_envelope messageID (time_Now rt)
            (InvalidHandshakeReconnectDelay cfg)) = Ok payload) ∧
  (calls_Publish (events r) ≠ [] → ∃ err, outcome r = Returned (Some err)).
Proof.
  intros r. subst r.
  assert (∀ x, In x (calls_Publish (events (reconnect clientID))) →
               let '(topic, qos, retained, payload) := x in
               topic = BuildOutgoingControlTopic topicBuilder clientID ∧
               qos = MqttControlPublishQoS cfg ∧ retained = false ∧
               ∃ messageID,
                 uuid_NewRandom rt = Ok messageID ∧
                 json_Marshal rt
                   (reconnect_envelope messageID (time_Now rt)
                      (InvalidHandshakeReconnectDelay cfg)) = Ok payload)
    as Hreconnect.
  { intros x. destruct (reconnect_publishes clientID)
      as [->|(messageID & payload & Hid & Hm & ->)]; [done|].
    intros [<-|[]]. simpl. repeat split. eauto. }
  pose proof (sendReconnect_publish_le rt client topicBuilder
                (MqttControlPublishQoS cfg) clientID
                (InvalidHandshakeReconnectDelay cfg)) as Hle.
  destruct (status_cases clientID msg)
    as [[reason ->]|[(p & Hc & Hs & -> & _)|(p & Hc & ->)]].
  - repeat split; simpl; try lia; done.
  - repeat split; simpl; try lia; done.
  - cbn [events outcome].
    destruct (online_path_complete rt cfg client topicBuilder
                connectionRegistrar accountResolver connectedClientRecorder
                sourcesRecorder clientID msg p Hc)
      as [e Hr|i a e Hr Hreg|i a reason Hr Hreg Hg|i a e Hr Hreg Hg Hrec
         |i a gate Hr Hreg Hg Hrec];
      cbn [events outcome].
    + split; [|split]; [obs; done| |eauto].
      intros topic qos retained payload Hin. obs_in Hin.
      apply (Hreconnect _ Hin).
    + split; [|split]; [obs; done| |eauto].
      intros topic qos retained payload Hin. obs_in Hin.
      apply (Hreconnect _ Hin).
    + repeat split; simpl; try lia; done.
    + split; [|split]; [obs; done| |eauto].
      intros topic qos retained payload Hin. obs_in Hin.
      apply (Hreconnect _ Hin).
    + clear Hreconnect Hle. footprints.
      destruct gate; obs; fp_rewrite; repeat split; simpl; try lia; done.
Qed.

(** X8. The connected client recorder and the sources recorder are called
    only after a registration that succeeded: when one of them is called,
    the calls of the collaborators start with the resolver and then
    [Register], the resolver answered the account of the registered client,
    [Register] answered no error, and [Unregister] is not called. *)
Theorem downstream_only_after_registration clientID msg :
  let t := events (handshake clientID msg) in
  calls_RecordConnectedClient t ≠ [] ∨ calls_RegisterWithSources t ≠ [] →
  ∃ rc rest,
    collaborator_calls t =
      Call_MapClientIdToAccountId clientID :: Call_Register rc :: rest ∧
    Register connectionRegistrar rc = None ∧
    (∃ identity,
       MapClientIdToAccountId accountResolver clientID
       = Ok (identity, Account rc)) ∧
    calls_Unregister t = [].
Proof.
  intros t. subst t.
  destruct (status_cases clientID msg)
    as [[reason ->]|[(p & Hc & Hs & _ & -> & ->)|(p & Hc & ->)]].
  - by intros [|].
  - by intros [|].
  - cbn [events].
    destruct (online_path_complete rt cfg client topicBuilder
                connectionRegistrar accountResolver connectedClientRecorder
                sourcesRecorder clientID msg p Hc)
      as [e Hr|i a e Hr Hreg|i a reason Hr Hreg Hg|i a e Hr Hreg Hg Hrec
         |i a gate Hr Hreg Hg Hrec];
      cbn [events].
    + footprints. obs. fp_rewrite. by intros [|].
    + footprints. obs. fp_rewrite. by intros [|].
    + by intros [|].
    + intros _. footprints. obs. fp_rewrite.
      exists (rhcClient_of clientID a p),
        [Call_RecordConnectedClient i (rhcClient_of clientID a p)].
      split; [done|]. split; [done|]. split; [simpl; eauto|done].
    + intros _.
      exists (rhcClient_of clientID a p),
        (collaborator_calls
           ((if gate
             then [Call_RecordConnectedClient i (rhcClient_of clientID a p)]
             else [])
            ++ events (processDispatchers sourcesRecorder i a clientID p))).
      split; [done|]. split; [done|]. split; [simpl; eauto|].
      footprints. destruct gate; obs; by fp_rewrite.
Qed.

(** X9. A connection status reads three keys of its payload, [state],
    [dispatchers] and [canonical_facts]: two envelopes whose payloads agree
    on them are handled alike, whatever else the payloads and the envelopes
    hold. *)
Theorem handshake_reads_three_keys clientID msg msg' p p' :
  Content msg = MapStringAny p →
  Content msg' = MapStringAny p' →
  p !! "state" = p' !! "state" →
  p !! "dispatchers" = p' !! "dispatchers" →
  p !! "canonical_facts" = p' !! "canonical_facts" →
  handleConnectionStatusMessage rt client clientID msg cfg topicBuilder
    connectionRegistrar accountResolver connectedClientRecorder
    sourcesRecorder
  = handleConnectionStatusMessage rt client clientID msg' cfg topicBuilder
      connectionRegistrar accountResolver connectedClientRecorder
      sourcesRecorder.
Proof.
  intros Hc Hc' Hs Hd Hf.
  unfold handleConnectionStatusMessage, handleOnlineMessage,
    handleOfflineMessage, shouldHostBeRegisteredWithInventory,
    doesHostHaveCanonicalFacts, doesHostHavePlaybookWorker, processDispatchers,
    index, dispatchersKey, canonicalFactsKey.
  rewrite Hc, Hc'. run_simpl. rewrite Hs.
  destruct (p' !! "state") as [v|]; [|done].
  destruct (eq_string v "online"); [|done].
  run_simpl.
  destruct (MapClientIdToAccountId accountResolver clientID) as [[i a]|];
    [|done].
  run_simpl. by rewrite Hd, Hf.
Qed.

(** X10. A [dispatchers] value that is not a map is found out after the
    registration: the resolver and [Register] are called, then the handler
    panics, and the registration is left as it is, with no [Unregister], no
    reconnect command, and no call of the recorders. *)
Theorem malformed_dispatchers_leave_registration clientID msg p v
    identity account :
  Content msg = MapStringAny p →
  p !! "state" = Some (String "online") →
  p !! "dispatchers" = Some v → is_map v = false →
  MapClientIdToAccountId accountResolver clientID = Ok (identity, account) →
  Register connectionRegistrar (rhcClient_of clientID account p) = None →
  let r := handshake clientID msg in
  (∃ reason, outcome r = Panicked reason) ∧
  collaborator_calls (events r) =
    [ Call_MapClientIdToAccountId clientID;
      Call_Register (rhcClient_of clientID account p) ] ∧
  calls_Publish (events r) = [] ∧
  spawned (events r) = [].
Proof.
  intros Hc Hs Hd Hv Hr Hreg r. subst r.
  rewrite (status_online _ _ _ _ _ _ _ _ _ _ _ Hc Hs).
  destruct (online_dispatchers_panic rt cfg client topicBuilder
              connectionRegistrar accountResolver connectedClientRecorder
              sourcesRecorder clientID msg p v identity account
              Hc Hr Hreg Hd Hv) as [reason ->].
  split; [by exists reason|done].
Qed.
End HandshakeInvariants.

(** ** The subscriptions *)

(** X11. The connect handler subscribes in the order of the subscribers and
    stops at the first subscription that fails, with a fatal exit: the
    subscriptions it asks for are a prefix of the subscribers; when no
    subscription fails they are all of them and the handler returns; when
    one fails, those before it and itself are asked for, those after it are
    not, and the process exits. *)
Theorem subscriptions_in_order_until_failure (subscribers : list Subscriber)
    (client : Subscriptions) :
  let r := RegisterSubscribers_onConnect subscribers client in
  let wanted := map (λ s, (Topic s, Qos s)) in
  let succeeds s := MQTT.Error (Subscribe client (Topic s) (Qos s)) = None in
  calls_Subscribe r.1 `prefix_of` wanted subscribers ∧
  (Forall succeeds subscribers →
   calls_Subscribe r.1 = wanted subscribers ∧ r.2 = Returned tt) ∧
  (∀ before s after,
     subscribers = before ++ s :: after →
     Forall succeeds before → ¬ succeeds s →
     calls_Subscribe r.1 = wanted (before ++ [s]) ∧ r.2 = Exited 1).
Proof.
  cbv zeta. induction subscribers as [|s rest IH]; simpl.
  - split; [done|]. split; [done|].
    intros before s after Heq. by destruct before.
  - destruct (MQTT.Error (Subscribe client (Topic s) (Qos s))) eqn:Hs.
    + simpl. split; [by apply prefix_cons, prefix_nil|].
      split.
      * intros Hall. apply Forall_cons in Hall as [Hok _]. simpl in Hok.
        congruence.
      * intros before s' after Heq Hbefore Hfail.
        destruct before as [|b before]; simplify_eq/=.
        -- done.
        -- apply Forall_cons in Hbefore as [Hok _]. simpl in Hok. congruence.
    + destruct (RegisterSubscribers_onConnect rest client) as [t o].
      destruct IH as (Hprefix & Hall & Hfirst). simpl in *.
      split; [by apply prefix_cons|]. split.
      * intros Hok. apply Forall_cons in Hok as [_ Hok].
        destruct (Hall Hok) as [-> ->]. done.
      * intros before s' after Heq Hbefore Hfail.
        destruct before as [|b before]; simplify_eq/=.
        apply Forall_cons in Hbefore as [_ Hbefore].
        destruct (Hfirst before s' after eq_refl Hbefore Hfail) as [-> ->].
        done.
Qed.

(** ** The options of the broker connection *)

Lemma nonempty_true s : nonempty s = true ↔ s ≠ "".
Proof.
  unfold nonempty. rewrite negb_true_iff. apply String.eqb_neq.
Qed.

(** X12. [buildBrokerTlsConfigFuncList] fails exactly when one of the
    certificate file and the key file is given without the other, and then
    returns no option. Otherwise its options are, in this order and without
    repetition, the certificate with its key exactly when both are given, the
    CA certificates exactly when a CA file is given, and the skipping of the
    verification exactly when it is asked for. *)
Theorem tls_options_of_settings (cfg : TlsSettings) :
  let r := buildBrokerTlsConfigFuncList cfg in
  let cert := MqttBrokerTlsCertFile cfg in
  let key := MqttBrokerTlsKeyFile cfg in
  let ca := MqttBrokerTlsCACertFile cfg in
  (r.2 ≠ None ↔ nonempty cert ≠ nonempty key) ∧
  (r.2 ≠ None →
   r = ([], Some (errors_New "Cert or key file specified without the other"))) ∧
  (r.2 = None →
   sublist r.1 [ tls_utils.WithCert cert key; tls_utils.WithCACerts ca;
                 tls_utils.WithSkipVerify ] ∧
   (In (tls_utils.WithCert cert key) r.1 ↔ cert ≠ "" ∧ key ≠ "") ∧
   (In (tls_utils.WithCACerts ca) r.1 ↔ ca ≠ "") ∧
   (In tls_utils.WithSkipVerify r.1 ↔ MqttBrokerTlsSkipVerify cfg = true)).
Proof.
  cbv zeta. unfold buildBrokerTlsConfigFuncList.
  rewrite <- !nonempty_true.
  destruct (nonempty (MqttBrokerTlsCertFile cfg)),
    (nonempty (MqttBrokerTlsKeyFile cfg)),
    (nonempty (MqttBrokerTlsCACertFile cfg)),
    (MqttBrokerTlsSkipVerify cfg); simpl;
    (split; [intuition congruence|]); (split; [intuition congruence|]);
    intros Hnone; try discriminate;
    (split; [repeat constructor|]); intuition (try discriminate; eauto).
Qed.

Section BrokerOptionsProperties.
Context {TlsConfig JwtGenerator : Type}
  (url_Parse : string → result string)
  (NewJwtGenerator : string → result JwtGenerator).

#[local] Abbreviation options brokerUrl tlsConfig cfg :=
  (buildMessageHandlerMqttBrokerConfigFuncList url_Parse NewJwtGenerator
     brokerUrl tlsConfig cfg).

(** The options that are built, by their parts. *)
Lemma broker_options_parts (brokerUrl : string) (tlsConfig : option TlsConfig)
    (cfg : BrokerSettings) scheme
    (jwt : list (MqttClientOptionsFunc TlsConfig JwtGenerator)) :
  url_Parse brokerUrl = Ok scheme →
  (if String.eqb scheme "wss"
   then ∃ g, NewJwtGenerator (MqttBrokerJwtGeneratorImpl cfg) = Ok g ∧
             jwt = [WithJwtAsHttpHeader g; WithJwtReconnectingHandler g]
   else jwt = []) →
  options brokerUrl tlsConfig cfg =
  MkRun []
    (Returned
       (Ok (match tlsConfig with
            | Some t => [WithTlsConfig t]
            | None => []
            end
            ++ jwt
            ++ (if nonempty (MqttClientId cfg)
                then [WithClientID (MqttClientId cfg)] else [])
            ++ [ WithCleanSession (MqttCleanSession cfg);
                 WithResumeSubs (MqttResumeSubs cfg) ]))).
Proof.
  intros Hurl Hjwt. unfold buildMessageHandlerMqttBrokerConfigFuncList.
  rewrite Hurl. destruct (String.eqb scheme "wss").
  - destruct Hjwt as (g & -> & ->).
    by destruct tlsConfig, (nonempty (MqttClientId cfg)).
  - subst jwt. by destruct tlsConfig, (nonempty (MqttClientId cfg)).
Qed.

(** X13. [buildMessageHandlerMqttBrokerConfigFuncList] fails exactly when
    the URL of the broker does not parse, or when its scheme is [wss] and
    the JWT generator cannot be made; a failure is logged once at the error
    level. When it succeeds it logs nothing and its options end with the
    clean-session and the resume-subscriptions options, in this order; the
    two JWT options are there exactly when the scheme is [wss], with the
    generator that was made; the client id is there exactly when it is not
    empty; the TLS configuration is there exactly when one is given. *)
Theorem broker_options_of_settings (brokerUrl : string)
    (tlsConfig : option TlsConfig) (cfg : BrokerSettings) :
  let r := options brokerUrl tlsConfig cfg in
  let wss := url_Parse brokerUrl = Ok "wss" in
  (∀ err,
     outcome r = Returned (Err err) ↔
     url_Parse brokerUrl = Err err ∨
     (wss ∧ NewJwtGenerator (MqttBrokerJwtGeneratorImpl cfg) = Err err)) ∧
  (∀ err, outcome r = Returned (Err err) →
          length (logged ErrorLevel (events r)) = 1%nat) ∧
  (∀ funcs,
     outcome r = Returned (Ok funcs) →
     events r = [] ∧
     (∃ front,
        funcs = front ++ [ WithCleanSession (MqttCleanSession cfg);
                           WithResumeSubs (MqttResumeSubs cfg) ]) ∧
     (∀ g, In (WithJwtAsHttpHeader g) funcs ↔
           wss ∧ NewJwtGenerator (MqttBrokerJwtGeneratorImpl cfg) = Ok g) ∧
     (∀ g, In (WithJwtReconnectingHandler g) funcs ↔
           wss ∧ NewJwtGenerator (MqttBrokerJwtGeneratorImpl cfg) = Ok g) ∧
     (∀ id, In (WithClientID id) funcs ↔ id = MqttClientId cfg ∧ id ≠ "") ∧
     (∀ t, In (WithTlsConfig t) funcs ↔ tlsConfig = Some t)).
Proof.
  cbv zeta.
  destruct (url_Parse brokerUrl) as [scheme|e] eqn:Hurl.
  2: { unfold buildMessageHandlerMqttBrokerConfigFuncList. rewrite Hurl.
       split; [|split]; [|done|done].
       intros err. simpl. split; [intros [= ->]; by left|].
       by intros [[= ->]|[? _]]. }
  destruct (String.eqb scheme "wss") eqn:Hscheme.
  - apply String.eqb_eq in Hscheme as ->.
    destruct (NewJwtGenerator (MqttBrokerJwtGeneratorImpl cfg))
      as [g|e] eqn:Hjwt.
    + rewrite (broker_options_parts brokerUrl tlsConfig cfg "wss"
                 [WithJwtAsHttpHeader g; WithJwtReconnectingHandler g] Hurl)
        by (simpl; eauto).
      cbn [outcome events].
      split; [|split]; [|done|].
      { intros err. split; [done|]. by intros [|[_ ?]]. }
      intros funcs [= <-]. split; [done|]. split.
      { exists (match tlsConfig with
                | Some t => [WithTlsConfig t]
                | None => []
                end
                ++ WithJwtAsHttpHeader g :: WithJwtReconnectingHandler g
                   :: (if nonempty (MqttClientId cfg)
                       then [WithClientID (MqttClientId cfg)] else [])).
        by rewrite <- app_assoc. }
      assert (nonempty (MqttClientId cfg) = true ↔ MqttClientId cfg ≠ "")
        as Hid by apply nonempty_true.
      repeat split.
      all: destruct tlsConfig, (nonempty (MqttClientId cfg)).
      all: cbv [In app] in *.
      all: intuition (simplify_eq; done).
    + unfold buildMessageHandlerMqttBrokerConfigFuncList.
      rewrite Hurl, Hjwt. simpl.
      split; [|split]; [|done|done].
      intros err. split; [intros [= ->]; by right|].
      by intros [|[_ [= ->]]].
  - assert (scheme ≠ "wss") as Hne by by apply String.eqb_neq.
    rewrite (broker_options_parts brokerUrl tlsConfig cfg scheme [] Hurl)
      by by rewrite Hscheme.
    cbn [outcome events].
    split; [|split]; [|done|].
    { intros err. split; [done|]. intros [|[[= ->] _]]; done. }
    intros funcs [= <-]. split; [done|]. split.
    { exists (match tlsConfig with
              | Some t => [WithTlsConfig t]
              | None => []
              end
              ++ (if nonempty (MqttClientId cfg)
                  then [WithClientID (MqttClientId cfg)] else [])).
      by rewrite <- app_assoc. }
    assert (nonempty (MqttClientId cfg) = true ↔ MqttClientId cfg ≠ "")
      as Hid by apply nonempty_true.
    repeat split.
    all: destruct tlsConfig, (nonempty (MqttClientId cfg)).
    all: cbv [In app] in *.
    all: intuition (simplify_eq; done).
Qed.
End BrokerOptionsProperties.

(** ** No fatal exit on the control path *)

(** The goroutines of a handshake wait for the token of a publish. *)
Lemma handshake_events_spawned t :
  Forall handshake_event t → Forall (λ g, ∃ token, g = go_Wait token) (spawned t).
Proof.
  induction 1 as [|e t He _ IH]; [constructor|].
  destruct He as [| |token|e He]; try done.
  - constructor; eauto.
  - by destruct e.
Qed.

Lemma enroll_never_exits sourcesRecorder identity account clientID p code :
  outcome (processDispatchers sourcesRecorder identity account clientID p)
  ≠ Exited code.
Proof.
  unfold processDispatchers.
  repeat (case_match_goal; run_simpl); done.
Qed.

Section NeverExits.
Context (rt : Runtime) (cfg : Config) (mqttClient client : MQTT.Client)
  (topicVerifier : TopicVerifier) (topicBuilder : TopicBuilder)
  (connectionRegistrar : ConnectionRegistrar)
  (accountResolver : AccountIdResolver)
  (connectedClientRecorder : ConnectedClientRecorder)
  (sourcesRecorder : SourcesRecorder).

#[local] Abbreviation handle topic payload :=
  (HandleControlMessage rt cfg mqttClient topicVerifier topicBuilder
     connectionRegistrar accountResolver connectedClientRecorder
     sourcesRecorder client topic payload).
#[local] Abbreviation handshake clientID msg :=
  (handleConnectionStatusMessage rt client clientID msg cfg topicBuilder
     connectionRegistrar accountResolver connectedClientRecorder
     sourcesRecorder).

Lemma status_never_exits clientID msg code :
  outcome (handshake clientID msg) ≠ Exited code.
Proof.
  destruct (Content msg) as [| | | | |p|] eqn:Hc;
    try (unfold handleConnectionStatusMessage; rewrite Hc; by run_simpl).
  destruct (state_online_dec p) as [Hs|Hs].
  - rewrite (status_online _ _ _ _ _ _ _ _ _ _ p Hc Hs). cbn [outcome].
    destruct (online_path_complete rt cfg client topicBuilder
                connectionRegistrar accountResolver connectedClientRecorder
                sourcesRecorder clientID msg p Hc)
      as [e Hr|i a e Hr Hreg|i a reason Hr Hreg Hg|i a e Hr Hreg Hg Hrec
         |i a gate Hr Hreg Hg Hrec];
      cbn [outcome]; try done.
    pose proof (enroll_never_exits sourcesRecorder i a clientID p code) as He.
    destruct (outcome (processDispatchers _ _ _ _ _)); [done|done|].
    intros [= ->]. by apply He.
  - unfold handleConnectionStatusMessage, handleOfflineMessage.
    rewrite Hc. run_simpl.
    destruct (p !! "state") as [v|]; [|done].
    rewrite eq_string_false by congruence.
    by destruct (eq_string v "offline").
Qed.

(** X14. The handler of control messages takes no fatal exit: for every
    frame it returns or it panics, and it never ends through [logger.Fatal].
    Every goroutine it starts waits for the token of a publish and returns,
    and nothing is written to Kafka, neither by the handler nor by its
    goroutines. *)
Theorem control_handler_returns_or_panics topic payload :
  let r := handle topic payload in
  (outcome r = Returned tt ∨ ∃ reason, outcome r = Panicked reason) ∧
  (∀ code, outcome r ≠ Exited code) ∧
  Forall (λ g, (∃ token, g = go_Wait token) ∧
               outcome (run_goroutine g) = Returned tt)
         (spawned (events r)) ∧
  calls_WriteMessages (all_events (events r)) = [].
Proof.
  intros r. subst r.
  assert (∀ o : Outcome unit,
            (∀ code, o ≠ Exited code) →
            o = Returned tt ∨ ∃ reason, o = Panicked reason) as Hpos.
  { intros [[]|reason|code] Ho; [by left|right; eauto|by destruct (Ho code)]. }
  match goal with
  | |- _ ∧ ?Q => enough Q as Hrest by (split; [apply Hpos, Hrest|exact Hrest])
  end.
  clear Hpos.
  assert (∀ t, Forall handshake_event t →
               Forall (λ g, (∃ token, g = go_Wait token) ∧
                            outcome (run_goroutine g) = Returned tt)
                      (spawned t) ∧
               calls_WriteMessages (all_events t) = []) as Hfp.
  { intros t Ht. pose proof (handshake_events_spawned t Ht) as Hs.
    destruct (handshake_events_obs t Ht) as [_ Hw].
    split.
    - eapply Forall_impl; [exact Hs|]. intros g [token ->].
      split; [eauto|]. simpl. by destruct (MQTT.Error token).
    - unfold all_events, calls_WriteMessages in *.
      rewrite omap_app, concat_app, Hw. simpl.
      induction Hs as [|g gs [token ->] _ IH]; [done|].
      simpl. rewrite omap_app, concat_app, IH.
      by destruct (MQTT.Error token). }
  unfold HandleControlMessage. run_simpl.
  destruct (VerifyIncomingTopic topicVerifier topic) as [[? clientID]|];
    [|by repeat split].
  case_bool_decide; [by repeat split|].
  destruct (json_Unmarshal rt payload) as [msg|]; [|by repeat split].
  run_simpl.
  destruct (String.eqb (MessageType msg) "connection-status").
  - change (events (handshake clientID msg ≫= λ _, mret tt))
      with (events (handshake clientID msg ≫= λ _ : option error, mret tt)).
    rewrite events_bind, outcome_bind.
    pose proof (status_footprint rt cfg client topicBuilder
                  connectionRegistrar accountResolver
                  connectedClientRecorder sourcesRecorder clientID msg) as Ht.
    split.
    + intros code.
      pose proof (status_never_exits clientID msg code) as He.
      destruct (outcome (handshake clientID msg)); [done|done|].
      intros [= ->]. by apply He.
    + assert (Forall handshake_event
                (events (handshake clientID msg)
                 ++ match outcome (handshake clientID msg) with
                    | Returned x => events (mret tt : Run unit)
                    | _ => []
                    end)) as Hall.
      { apply Forall_app. split; [done|].
        destruct (outcome (handshake clientID msg)); simpl; constructor. }
      destruct (Hfp _ Hall) as [Hs Hw]. split; [exact Hs|exact Hw].
  - destruct (String.eqb (MessageType msg) "event"); by repeat split.
Qed.
End NeverExits.

(** ** The order of the collaborators *)

(** The enrollment calls the sources recorder at most once, and no other
    collaborator. *)
Lemma enroll_collaborator_calls sourcesRecorder identity account clientID p :
  let t := collaborator_calls
             (events (processDispatchers sourcesRecorder identity account
                        clientID p)) in
  t = [] ∨
  ∃ ref name type app,
    t = [Call_RegisterWithSources identity account clientID ref name type app].
Proof.
  cbv zeta. unfold processDispatchers.
  repeat (case_match_goal; run_simpl); simpl; eauto 10.
Qed.

Section CollaboratorOrder.
Context (rt : Runtime) (cfg : Config) (client : MQTT.Client)
  (topicBuilder : TopicBuilder) (connectionRegistrar : ConnectionRegistrar)
  (accountResolver : AccountIdResolver)
  (connectedClientRecorder : ConnectedClientRecorder)
  (sourcesRecorder : SourcesRecorder).

#[local] Abbreviation handshake clientID msg :=
  (handleConnectionStatusMessage rt client clientID msg cfg topicBuilder
     connectionRegistrar accountResolver connectedClientRecorder
     sourcesRecorder).

(** X15. A connection status calls each collaborator at most once, in the
    order resolver, [Register], connected client recorder, sources recorder:
    its calls are none, or [Unregister] alone, or the resolver alone, or the
    resolver and [Register] followed by at most one call of the connected
    client recorder and then at most one call of the sources recorder, all
    for the client of the topic, the identity and the account that the
    resolver answered. *)
Theorem collaborators_called_once_in_order clientID msg :
  let t := collaborator_calls (events (handshake clientID msg)) in
  t = [] ∨
  t = [Call_Unregister clientID] ∨
  t = [Call_MapClientIdToAccountId clientID] ∨
  ∃ identity account p ref name type app recorded enrolled,
    let rc := rhcClient_of clientID account p in
    Content msg = MapStringAny p ∧
    MapClientIdToAccountId accountResolver clientID = Ok (identity, account) ∧
    recorded `sublist_of` [Call_RecordConnectedClient identity rc] ∧
    enrolled `sublist_of`
      [Call_RegisterWithSources identity account clientID ref name type app] ∧
    t = Call_MapClientIdToAccountId clientID :: Call_Register rc
        :: recorded ++ enrolled.
Proof.
  cbv zeta.
  destruct (Content msg) as [| | | | |p|] eqn:Hc;
    try (left; unfold handleConnectionStatusMessage; rewrite Hc; by run_simpl).
  destruct (state_online_dec p) as [Hs|Hs].
  - rewrite (status_online _ _ _ _ _ _ _ _ _ _ p Hc Hs). cbn [events].
    destruct (online_path_complete rt cfg client topicBuilder
                connectionRegistrar accountResolver connectedClientRecorder
                sourcesRecorder clientID msg p Hc)
      as [e Hr|i a e Hr Hreg|i a reason Hr Hreg Hg|i a e Hr Hreg Hg Hrec
         |i a gate Hr Hreg Hg Hrec];
      cbn [events].
    + right. right. left. footprints. obs. by fp_rewrite.
    + right. right. right.
      exists i, a, p, "", "", "", "", [], [].
      split_and!; [done|done|apply sublist_nil_l|apply sublist_nil_l|].
      footprints. obs. by fp_rewrite.
    + right. right. right.
      exists i, a, p, "", "", "", "", [], [].
      split_and!; [done|done|apply sublist_nil_l|apply sublist_nil_l|done].
    + right. right. right.
      exists i, a, p, "", "", "", "",
        [Call_RecordConnectedClient i (rhcClient_of clientID a p)], [].
      split_and!; [done|done|done|apply sublist_nil_l|].
      footprints. obs. by fp_rewrite.
    + right. right. right.
      destruct (enroll_collaborator_calls sourcesRecorder i a clientID p)
        as [He|(sref & sname & stype & sapp & He)].
      * exists i, a, p, "", "", "", "",
          (if gate
           then [Call_RecordConnectedClient i (rhcClient_of clientID a p)]
           else []), [].
        split_and!; [done|done| |apply sublist_nil_l|].
        { destruct gate; [done|apply sublist_nil_l]. }
        unfold collaborator_calls in *.
        cbn [app List.filter is_collaborator_call].
        rewrite List.filter_app, He. by destruct gate.
      * exists i, a, p, sref, sname, stype, sapp,
          (if gate
           then [Call_RecordConnectedClient i (rhcClient_of clientID a p)]
           else []),
          [Call_RegisterWithSources i a clientID sref sname stype sapp].
        split_and!; [done|done| |done|].
        { destruct gate; [done|apply sublist_nil_l]. }
        unfold collaborator_calls in *.
        cbn [app List.filter is_collaborator_call].
        rewrite List.filter_app, He. by destruct gate.
  - unfold handleConnectionStatusMessage, handleOfflineMessage.
    rewrite Hc. run_simpl.
    destruct (p !! "state") as [v|]; [|by left].
    rewrite eq_string_false by congruence.
    destruct (eq_string v "offline"); [right|]; by left.
Qed.
End CollaboratorOrder.

(** ** Further scenarios *)

(** A frame of the [event] type on a control topic is dropped. *)
Lemma unhandled_frame_event :
  let r := HandleControlMessage Scenario2.event_runtime Scenario.cfg
             Scenario.client Scenario.topicVerifier Scenario.topicBuilder
             Scenario.registrar Scenario.resolver Scenario.recorder
             Scenario.sources Scenario.client Scenario.control_topic
             Scenario.control_payload in
  MessageType Scenario2.event_envelope ≠ "connection-status" ∧
  outcome r = Returned tt ∧
  collaborator_calls (events r) = [] ∧
  calls_Publish (events r) = [] ∧
  spawned (events r) = [].
Proof.
  split; [discriminate|].
  apply (unhandled_frame_has_no_effect Scenario2.event_runtime Scenario.cfg
           Scenario.client Scenario.client Scenario.topicVerifier
           Scenario.topicBuilder Scenario.registrar Scenario.resolver
           Scenario.recorder Scenario.sources Scenario.control_topic
           Scenario.control_payload).
  right. right. right. exists Scenario2.event_envelope.
  split; [reflexivity|discriminate].
Defined.

(** S2: the recorder is called, after the resolver and [Register]. *)
Lemma downstream_only_after_registration_S2 :
  let p := Scenario.online_with (MapStringAny Scenario.catalog_SourceRef) in
  let t := events (Scenario.status p Scenario.registrar Scenario.resolver
                     Scenario.recorder Scenario.sources) in
  calls_RecordConnectedClient t ≠ [] ∧
  ∃ rc rest,
    collaborator_calls t =
      Call_MapClientIdToAccountId "abc" :: Call_Register rc :: rest ∧
    Register Scenario.registrar rc = None ∧
    (∃ identity,
       MapClientIdToAccountId Scenario.resolver "abc"
       = Ok (identity, Account rc)) ∧
    calls_Unregister t = [].
Proof.
  split; [discriminate|].
  apply (downstream_only_after_registration
           (Scenario.runtime
              (MapStringAny
                 (Scenario.online_with (MapStringAny Scenario.catalog_SourceRef))))
           Scenario.cfg Scenario.client Scenario.topicBuilder
           Scenario.registrar Scenario.resolver Scenario.recorder
           Scenario.sources "abc"
           (Scenario.envelope
              (MapStringAny
                 (Scenario.online_with (MapStringAny Scenario.catalog_SourceRef))))).
  left. discriminate.
Defined.

(** S2 and S2 with two more keys, in another envelope, are handled alike. *)
Lemma handshake_reads_three_keys_S2 :
  let p := Scenario.online_with (MapStringAny Scenario.catalog_SourceRef) in
  let p' := Scenario2.online_annotated in
  let handshake msg :=
    handleConnectionStatusMessage (Scenario.runtime (MapStringAny p))
      Scenario.client "abc" msg Scenario.cfg Scenario.topicBuilder
      Scenario.registrar Scenario.resolver Scenario.recorder
      Scenario.sources in
  p ≠ p' ∧
  p !! "state" = p' !! "state" ∧
  p !! "dispatchers" = p' !! "dispatchers" ∧
  p !! "canonical_facts" = p' !! "canonical_facts" ∧
  handshake (Scenario.envelope (MapStringAny p))
  = handshake Scenario2.annotated_envelope.
Proof.
  cbv zeta.
  split.
  { intros Heq.
    apply (f_equal (λ m : gmap string any, m !! "tags")) in Heq.
    vm_compute in Heq. discriminate. }
  split; [reflexivity|]. split; [reflexivity|]. split; [reflexivity|].
  apply (handshake_reads_three_keys
           (Scenario.runtime
              (MapStringAny
                 (Scenario.online_with (MapStringAny Scenario.catalog_SourceRef))))
           Scenario.cfg Scenario.client Scenario.topicBuilder
           Scenario.registrar Scenario.resolver Scenario.recorder
           Scenario.sources "abc"
           (Scenario.envelope
              (MapStringAny
                 (Scenario.online_with (MapStringAny Scenario.catalog_SourceRef))))
           Scenario2.annotated_envelope
           (Scenario.online_with (MapStringAny Scenario.catalog_SourceRef))
           Scenario2.online_annotated);
    reflexivity.
Defined.

(** A handshake whose [dispatchers] is a list registers the client and
    panics. *)
Lemma malformed_dispatchers_list :
  let p := Scenario.online_dispatchers_list in
  let r := Scenario.status p Scenario.registrar Scenario.resolver
             Scenario.recorder Scenario.sources in
  p !! "dispatchers" = Some (Slice []) ∧
  (∃ reason, outcome r = Panicked reason) ∧
  collaborator_calls (events r) =
    [ Call_MapClientIdToAccountId "abc";
      Call_Register (Scenario.registered p) ] ∧
  calls_Publish (events r) = [] ∧
  spawned (events r) = [].
Proof.
  split; [reflexivity|].
  apply (malformed_dispatchers_leave_registration
           (Scenario.runtime (MapStringAny Scenario.online_dispatchers_list))
           Scenario.cfg Scenario.client Scenario.topicBuilder
           Scenario.registrar Scenario.resolver Scenario.recorder
           Scenario.sources "abc"
           (Scenario.envelope (MapStringAny Scenario.online_dispatchers_list))
           Scenario.online_dispatchers_list (Slice [])
           "identity-of-abc" "account-1");
    reflexivity.
Defined.
